(** * Post-processing volumes controller (post-processing.py)

    A shallow embedding of [PostProcessingController]: the per-frame [loop]
    that looks for the post processing volume holding the camera, retargets
    exposure and saturation when that volume changes, and blends the camera
    values toward the targets.

    Numbers are Python floats, that is IEEE 754 binary64, modelled by Rocq's
    primitive floats (same format, round to nearest even).  The host
    application's objects (camera, nodes, metadata sets) are records that
    carry what the script reads from them. *)

From Stdlib Require Import Floats ZArith.
From stdpp Require Import gmap strings list.

Set Warnings "-inexact-float".

(** ** Python values, exceptions *)

(** What a metadata lookup can hand back to the script, and so what a target
    attribute can hold: [None] when the set has no entry under the key, else
    the entry's value.  A number is given by its float value (an integer or
    boolean entry enters the script's arithmetic only as the left operand of
    [target - current], which takes it at its float value); a string and a
    value of any other type (a list, a date, ...), named by its type, are no
    numbers. *)
Inductive PyVal : Type :=
  | PyNone
  | PyFloat (f : float)
  | PyStr (text : string)
  | PyObject (type_name : string).

Inductive PyExn : Type :=
  | TypeError
  | KeyError.

Inductive result (A : Type) : Type :=
  | Ok (a : A)
  | Raise (e : PyExn).
Arguments Ok {A} a.
Arguments Raise {A} e.

(** [target - current] where [target] is an attribute that may hold any
    value: subtracting a float from [None], from a string or from another
    object that is no number raises [TypeError]. *)
Definition py_sub (a : PyVal) (b : float) : result float :=
  match a with
  | PyFloat f => Ok (f - b)%float
  | PyNone => Raise TypeError
  | PyStr _ => Raise TypeError
  | PyObject _ => Raise TypeError
  end.

(** Python's [a > b] on floats. *)
Definition float_gt (a b : float) : bool := (b <? a)%float.

(** Python's chained comparison [a < b < c]. *)
Definition chained_lt (a b c : float) : bool := (a <? b)%float && (b <? c)%float.

(** ** Host objects *)

Record QVector3D : Type := mkVec
  { x : float; y : float; z : float }.

Record vrdBoundingBox : Type := mkBox
  { getMin : QVector3D; getMax : QVector3D }.

(** A scene node.  [getObjectId] is the identity of the underlying scene
    object, which is what [==] and [!=] on nodes compare. *)
Record vrdNode : Type := mkNode
  { getObjectId : N; getName : string; getBoundingBox : vrdBoundingBox }.

(** A metadata set: its name, the nodes it is assigned to and its key-value
    entries. *)
Record vrdMetadataSet : Type := mkSet
  { getSetName : string; getObjects : list vrdNode; entries : gmap string PyVal }.

(** [effect.getValue(key)]: the value of the entry under [key], [None]
    without one. *)
Definition getValue (effect : vrdMetadataSet) (key : string) : PyVal :=
  match entries effect !! key with
  | Some value => value
  | None => PyNone
  end.

(** The camera: world position, tonemapper exposure and colour correction
    saturation.  A getter returns the float the setter was last given. *)
Record vrdCameraNode : Type := mkCamera
  { getWorldTranslation : QVector3D;
    getExposure : float;
    getColorCorrectionSaturation : float }.

Definition setExposure (v : float) (c : vrdCameraNode) : vrdCameraNode :=
  mkCamera (getWorldTranslation c) v (getColorCorrectionSaturation c).

Definition setColorCorrectionSaturation (v : float) (c : vrdCameraNode) : vrdCameraNode :=
  mkCamera (getWorldTranslation c) (getExposure c) v.

Definition setWorldTranslation (p : QVector3D) (c : vrdCameraNode) : vrdCameraNode :=
  mkCamera p (getExposure c) (getColorCorrectionSaturation c).

(** [a != b] on values that are a node or [None]. *)
Definition node_ne (a b : option vrdNode) : bool :=
  match a, b with
  | None, None => false
  | Some u, Some v => negb (getObjectId u =? getObjectId v)%N
  | _, _ => true
  end.

(** ** The controller object *)

Record PostProcessingController : Type := mkController
  { isActive : bool;
    camera : vrdCameraNode;
    postProcessingVolumes : list vrdNode;
    postProcessingEffectMapping : gmap string vrdMetadataSet;
    originalCameraParameters : gmap string float;
    exposureTarget : PyVal;
    saturationTarget : PyVal;
    lastActiveProcessingVolume : option vrdNode;
    (** what [print] has written so far, oldest line first *)
    stdout : list string }.

Definition set_camera (c : vrdCameraNode) (s : PostProcessingController) :=
  mkController (isActive s) c (postProcessingVolumes s)
    (postProcessingEffectMapping s) (originalCameraParameters s)
    (exposureTarget s) (saturationTarget s) (lastActiveProcessingVolume s) (stdout s).

Definition set_exposureTarget (v : PyVal) (s : PostProcessingController) :=
  mkController (isActive s) (camera s) (postProcessingVolumes s)
    (postProcessingEffectMapping s) (originalCameraParameters s)
    v (saturationTarget s) (lastActiveProcessingVolume s) (stdout s).

Definition set_saturationTarget (v : PyVal) (s : PostProcessingController) :=
  mkController (isActive s) (camera s) (postProcessingVolumes s)
    (postProcessingEffectMapping s) (originalCameraParameters s)
    (exposureTarget s) v (lastActiveProcessingVolume s) (stdout s).

Definition set_lastActiveProcessingVolume (v : option vrdNode) (s : PostProcessingController) :=
  mkController (isActive s) (camera s) (postProcessingVolumes s)
    (postProcessingEffectMapping s) (originalCameraParameters s)
    (exposureTarget s) (saturationTarget s) v (stdout s).

Definition set_stdout (out : list string) (s : PostProcessingController) :=
  mkController (isActive s) (camera s) (postProcessingVolumes s)
    (postProcessingEffectMapping s) (originalCameraParameters s)
    (exposureTarget s) (saturationTarget s) (lastActiveProcessingVolume s) out.

Definition setActive (b : bool) (s : PostProcessingController) :=
  mkController b (camera s) (postProcessingVolumes s)
    (postProcessingEffectMapping s) (originalCameraParameters s)
    (exposureTarget s) (saturationTarget s) (lastActiveProcessingVolume s) (stdout s).

(** ** Methods as state transformers that may raise

    A method maps the controller to an outcome and the controller it leaves
    behind; what was assigned or printed before an exception stays. *)

Definition M (A : Type) : Type :=
  PostProcessingController -> result A * PostProcessingController.

Definition ret {A} (a : A) : M A := fun s => (Ok a, s).

Definition bind {A B} (m : M A) (k : A -> M B) : M B :=
  fun s =>
    match m s with
    | (Ok a, s') => k a s'
    | (Raise e, s') => (Raise e, s')
    end.

Definition raise {A} (e : PyExn) : M A := fun s => (Raise e, s).
Definition gets {A} (f : PostProcessingController -> A) : M A := fun s => (Ok (f s), s).
Definition modify (f : PostProcessingController -> PostProcessingController) : M unit :=
  fun s => (Ok tt, f s).
Definition lift {A} (r : result A) : M A := fun s => (r, s).

Declare Scope py_scope.
Delimit Scope py_scope with py.
Notation "v <- m ;; k" := (bind m (fun v => k))
  (at level 100, m at next level, right associativity) : py_scope.
Notation "m ;;; k" := (bind m (fun _ => k))
  (at level 100, right associativity) : py_scope.
Local Open Scope py_scope.

(** [print(msg)] *)
Definition print (msg : string) : M unit :=
  modify (fun s => set_stdout (stdout s ++ [msg]) s).

(** [d[k]] on a dict: [KeyError] when [k] is not a key. *)
Definition dict_getitem {V} (d : gmap string V) (k : string) : M V :=
  match d !! k with
  | Some v => ret v
  | None => raise KeyError
  end.

(** [k in d] *)
Definition dict_contains {V} (d : gmap string V) (k : string) : bool :=
  bool_decide (is_Some (d !! k)).

(** ** isCameraInsideBoundingBox *)

Definition isCameraInsideBoundingBox (camera : vrdCameraNode) (volume : vrdNode) : bool :=
  let cameraPosition := getWorldTranslation camera in
  let boundingBox := getBoundingBox volume in
  let min := getMin boundingBox in
  let max := getMax boundingBox in
  let isInsideX := chained_lt (x min) (x cameraPosition) (x max) in
  let isInsideY := chained_lt (y min) (y cameraPosition) (y max) in
  let isInsideZ := chained_lt (z min) (z cameraPosition) (z max) in
  isInsideX && isInsideY && isInsideZ.

(** ** setPostProcessingEffects, resetPostProcessingEffects *)

Definition entered_msg (volume : vrdNode) : string :=
  "Camera entered post processing volume: " +:+ getName volume.

Definition left_msg : string := "Camera left post processing volume".

Definition setPostProcessingEffects (postProcessingVolume : vrdNode) : M unit :=
  print (entered_msg postProcessingVolume) ;;;
  mapping <- gets postProcessingEffectMapping ;;
  if dict_contains mapping (getName postProcessingVolume) then
    effect <- dict_getitem mapping (getName postProcessingVolume) ;;
    let exposure := getValue effect "camera:exposure" in
    let saturation := getValue effect "camera:saturation" in
    modify (set_exposureTarget exposure) ;;;
    modify (set_saturationTarget saturation)
  else ret tt.

Definition resetPostProcessingEffects : M unit :=
  print left_msg ;;;
  original <- gets originalCameraParameters ;;
  exposure <- dict_getitem original "exposure" ;;
  modify (set_exposureTarget (PyFloat exposure)) ;;;
  saturation <- dict_getitem original "saturation" ;;
  modify (set_saturationTarget (PyFloat saturation)).

(** ** smoothCameraParameterUpdate *)

Definition smoothCameraParameterUpdate : M unit :=
  currentExposure <- gets (fun s => getExposure (camera s)) ;;
  currentSaturation <- gets (fun s => getColorCorrectionSaturation (camera s)) ;;
  exposureTarget' <- gets exposureTarget ;;
  saturationTarget' <- gets saturationTarget ;;
  dE <- lift (py_sub exposureTarget' currentExposure) ;;
  let diffExposure := abs dE in
  dS <- lift (py_sub saturationTarget' currentSaturation) ;;
  let diffSaturation := abs dS in
  (if float_gt diffExposure 0.1 then
     d <- lift (py_sub exposureTarget' currentExposure) ;;
     modify (fun s => set_camera (setExposure (currentExposure + d * 0.1)%float (camera s)) s)
   else ret tt) ;;;
  (if float_gt diffSaturation 0.1 then
     d <- lift (py_sub saturationTarget' currentSaturation) ;;
     modify (fun s => set_camera
       (setColorCorrectionSaturation (currentSaturation + d * 0.1)%float (camera s)) s)
   else ret tt).

(** ** loop *)

(** The [for] loop of [loop]: every volume is tested in list order and each
    hit overwrites [activeProcessingVolume]. *)
Definition scanVolumes (camera : vrdCameraNode) (volumes : list vrdNode) : option vrdNode :=
  fold_left
    (fun activeProcessingVolume postProcessingVolume =>
       if isCameraInsideBoundingBox camera postProcessingVolume
       then Some postProcessingVolume
       else activeProcessingVolume)
    volumes None.

Definition loop : M unit :=
  active <- gets isActive ;;
  (if active then
     cam <- gets camera ;;
     volumes <- gets postProcessingVolumes ;;
     let activeProcessingVolume := scanVolumes cam volumes in
     last <- gets lastActiveProcessingVolume ;;
     (if node_ne last activeProcessingVolume then
        match activeProcessingVolume with
        | Some v => setPostProcessingEffects v
        | None => resetPostProcessingEffects
        end
      else ret tt) ;;;
     modify (set_lastActiveProcessingVolume activeProcessingVolume)
   else ret tt) ;;;
  smoothCameraParameterUpdate.

(** ** __init__ *)

Definition initializePostProcessingEffectMapping (metadataSets : list vrdMetadataSet)
  : gmap string vrdMetadataSet :=
  let postProcessingMetaDataSets :=
    filter (fun s => String.prefix "PostProcessing" (getSetName s) = true) metadataSets in
  fold_left
    (fun mapping postProcessingMetaDataSet =>
       fold_left
         (fun mapping node => <[getName node := postProcessingMetaDataSet]> mapping)
         (getObjects postProcessingMetaDataSet) mapping)
    postProcessingMetaDataSets ∅.

(** [cam] is the active camera, [objects] the nodes tagged
    [postProcessingVolume] and [metadataSets] all metadata sets of the scene. *)
Definition init (cam : vrdCameraNode) (objects : list vrdNode)
    (metadataSets : list vrdMetadataSet) : PostProcessingController :=
  let original : gmap string float :=
    <["saturation" := getColorCorrectionSaturation cam]>
      (<["exposure" := getExposure cam]> ∅) in
  mkController true cam objects
    (initializePostProcessingEffectMapping metadataSets)
    original
    (PyFloat (getExposure cam))
    (PyFloat (getColorCorrectionSaturation cam))
    None [].

(** ** Frames

    Between two frames the host may move the camera; a frame runs [loop]
    once.  An exception ends that call of [loop] only: the host calls it
    again on the next frame, on the state the failed call left. *)

Definition frame (p : QVector3D) (s : PostProcessingController)
  : result unit * PostProcessingController :=
  loop (set_camera (setWorldTranslation p (camera s)) s).

Definition run (path : list QVector3D) (s : PostProcessingController)
  : PostProcessingController :=
  fold_left (fun s p => snd (frame p s)) path s.

(** [n] successive calls of [smoothCameraParameterUpdate]. *)
Fixpoint smoothN (n : nat) (s : PostProcessingController) : PostProcessingController :=
  match n with
  | O => s
  | S k => smoothN k (snd (smoothCameraParameterUpdate s))
  end.

(** ** Derived notions and example scenes

    Notions the statements below are phrased with, and concrete scenes
    on which they are exercised. *)

(** A coordinate lies on a bound when it is that very float or compares
    equal to it with Python's [==]. *)
Definition on_bound (a b : float) : Prop := a = b \/ (a =? b)%float = true.

(** The smoothing rule in the specification's words. *)
Definition blend_spec (target current : float) : float :=
  let diff := abs (target - current) in
  if float_gt diff 0.1 then (current + (target - current) * 0.1)%float else current.

(** A value the script cannot subtract a float from. *)
Definition not_a_number (v : PyVal) : Prop :=
  match v with
  | PyFloat _ => False
  | _ => True
  end.

(** C1 as the specification words it: one blend step moves each parameter
    by the smoothing rule on its own target, whatever the other target
    holds. *)
Definition blends_each_parameter_alone (s : PostProcessingController) : Prop :=
  (forall te,
      exposureTarget s = PyFloat te ->
      getExposure (camera (snd (smoothCameraParameterUpdate s))) =
        blend_spec te (getExposure (camera s)))
  /\ (forall ts,
        saturationTarget s = PyFloat ts ->
        getColorCorrectionSaturation (camera (snd (smoothCameraParameterUpdate s))) =
          blend_spec ts (getColorCorrectionSaturation (camera s))).

(** Exposure and saturation 0, both targets 10, no volumes. *)
Definition convergence_start : PostProcessingController :=
  mkController true (mkCamera (mkVec 0 0 0) 0 0) [] ∅ ∅
    (PyFloat 10) (PyFloat 10) None [].

(** The camera exposure after [n] blend steps, and how far it is from 10. *)
Definition exposureAt (n : nat) : float :=
  getExposure (camera (smoothN n convergence_start)).

Definition distanceAt (n : nat) : float := abs (10 - exposureAt n).

(** What holds at every step before the blend stops. *)
Definition moving_step (n : nat) : bool :=
  (distanceAt (S n) <? distanceAt n)%float
  && float_gt (distanceAt n) 0.1
  && (exposureAt n <? exposureAt (S n))%float
  && (exposureAt (S n) <? 10)%float.

(** Lines 93-100 of [loop]: what is done about a change of active volume. *)
Definition onVolumeChange (activeProcessingVolume : option vrdNode) : M unit :=
  last <- gets lastActiveProcessingVolume ;;
  if node_ne last activeProcessingVolume then
    match activeProcessingVolume with
    | Some v => setPostProcessingEffects v
    | None => resetPostProcessingEffects
    end
  else ret tt.

(** C4 as the specification words it: on an entry transition a parameter
    whose key the volume's metadata set lacks keeps its prior target. *)
Definition entry_keeps_missing_targets (s : PostProcessingController) : Prop :=
  forall v effect,
    isActive s = true ->
    scanVolumes (camera s) (postProcessingVolumes s) = Some v ->
    node_ne (lastActiveProcessingVolume s) (Some v) = true ->
    postProcessingEffectMapping s !! getName v = Some effect ->
    (entries effect !! "camera:exposure" = None ->
     exposureTarget (snd (loop s)) = exposureTarget s)
    /\ (entries effect !! "camera:saturation" = None ->
        saturationTarget (snd (loop s)) = saturationTarget s).

(** A scene with one volume whose metadata set has an exposure entry only;
    the camera starts inside the volume with exposure 1 and saturation 1. *)
Definition exposure_only_box : vrdNode :=
  mkNode 1 "Box" (mkBox (mkVec 0 0 0) (mkVec 2 2 2)).

Definition exposure_only_set : vrdMetadataSet :=
  mkSet "PostProcessing_CarInterior" [exposure_only_box] {[ "camera:exposure" := PyFloat 2 ]}.

Definition exposure_only_scene : PostProcessingController :=
  init (mkCamera (mkVec 1 1 1) 1 1) [exposure_only_box] [exposure_only_set].

(** A scene with one volume whose metadata set has both entries. *)
Definition car_interior_box : vrdNode :=
  mkNode 7 "Interior" (mkBox (mkVec 0 0 0) (mkVec 2 2 2)).

Definition car_interior_set : vrdMetadataSet :=
  mkSet "PostProcessing_CarInterior" [car_interior_box]
    (<[ "camera:saturation" := PyFloat 0.5 ]> {[ "camera:exposure" := PyFloat 2 ]}).

Definition car_interior_scene : PostProcessingController :=
  init (mkCamera (mkVec 1 1 1) 1 1) [car_interior_box] [car_interior_set].

(** The scene whose volume sets exposure only, after its first frame: the
    camera is in the volume, the exposure target is 2.0, the saturation
    target [None]. *)
Definition exposure_only_entered : PostProcessingController :=
  snd (loop exposure_only_scene).

(** The scene whose volume sets exposure only, one frame inside the volume,
    then the camera moved out of it. *)
Definition exposure_only_left : PostProcessingController :=
  let inside := snd (loop exposure_only_scene) in
  set_camera (setWorldTranslation (mkVec 5 5 5) (camera inside)) inside.

(** A scene with one volume whose metadata set has both entries, the
    exposure entry holding the string "2.0" instead of a number. *)
Definition text_valued_box : vrdNode :=
  mkNode 5 "Text" (mkBox (mkVec 0 0 0) (mkVec 2 2 2)).

Definition text_valued_set : vrdMetadataSet :=
  mkSet "PostProcessing_Text" [text_valued_box]
    (<[ "camera:saturation" := PyFloat 0.5 ]> {[ "camera:exposure" := PyStr "2.0" ]}).

Definition text_valued_scene : PostProcessingController :=
  init (mkCamera (mkVec 1 1 1) 1 1) [text_valued_box] [text_valued_set].

(** A tagged box that no metadata set is assigned to. *)
Definition bare_box : vrdNode :=
  mkNode 3 "Bare" (mkBox (mkVec 0 0 0) (mkVec 2 2 2)).

Definition bare_scene : PostProcessingController :=
  init (mkCamera (mkVec 1 1 1) 1 1) [bare_box] [exposure_only_set].

(** The car interior scene, entered and then switched off with the camera
    moved out: the stored volume and the targets stay, the exposure keeps
    moving from 1.1 toward 2. *)
Definition car_interior_frozen : PostProcessingController :=
  let inside := snd (loop car_interior_scene) in
  setActive false (set_camera (setWorldTranslation (mkVec 5 5 5) (camera inside)) inside).

(** The lines one frame of an active controller prints. *)
Definition frame_lines (s : PostProcessingController) : list string :=
  let act := scanVolumes (camera s) (postProcessingVolumes s) in
  if node_ne (lastActiveProcessingVolume s) act then
    match act with
    | Some v => [entered_msg v]
    | None => [left_msg]
    end
  else [].

(** Two boxes side by side; the camera spent one frame in the first and was
    then moved straight into the second. *)
Definition left_box : vrdNode :=
  mkNode 1 "A" (mkBox (mkVec 0 0 0) (mkVec 2 2 2)).

Definition right_box : vrdNode :=
  mkNode 2 "B" (mkBox (mkVec 2 0 0) (mkVec 4 2 2)).

Definition left_set : vrdMetadataSet :=
  mkSet "PostProcessing_A" [left_box]
    (<[ "camera:saturation" := PyFloat 0.5 ]> {[ "camera:exposure" := PyFloat 2 ]}).

Definition right_set : vrdMetadataSet :=
  mkSet "PostProcessing_B" [right_box]
    (<[ "camera:saturation" := PyFloat 1.5 ]> {[ "camera:exposure" := PyFloat 3 ]}).

Definition two_box_scene : PostProcessingController :=
  init (mkCamera (mkVec 1 1 1) 1 1) [left_box; right_box] [left_set; right_set].

Definition two_box_crossed : PostProcessingController :=
  let inA := snd (loop two_box_scene) in
  set_camera (setWorldTranslation (mkVec 3 1 1) (camera inA)) inA.

(** Whether the box of [v] holds position [p]. *)
Definition contains (v : vrdNode) (p : QVector3D) : bool :=
  isCameraInsideBoundingBox (mkCamera p 0 0) v.

(** The volume the scan finds with the camera at [p]. *)
Definition activeAt (volumes : list vrdNode) (p : QVector3D) : option vrdNode :=
  scanVolumes (mkCamera p 0 0) volumes.

(** The controller as [__init__] leaves it keeps these through every frame. *)
Definition ready (s : PostProcessingController) : Prop :=
  isActive s = true
  /\ is_Some (originalCameraParameters s !! "exposure")
  /\ is_Some (originalCameraParameters s !! "saturation").

(** The line a change of active volume to [act] prints. *)
Definition transition_line (act : option vrdNode) : string :=
  match act with
  | Some v => entered_msg v
  | None => left_msg
  end.

(** Position [p] is in neither box. *)
Definition outside (A B : vrdNode) (p : QVector3D) : Prop :=
  contains A p = false /\ contains B p = false.

(** The registry holds [A] and [B], in either order. *)
Definition registry (A B : vrdNode) (s : PostProcessingController) : Prop :=
  postProcessingVolumes s = [A; B] \/ postProcessingVolumes s = [B; A].

(** ** Notions for the further properties *)

(** Metadata set [S] is one that [initializePostProcessingEffectMapping]
    records under [name]: its name starts with "PostProcessing" and one of
    its nodes is called [name]. *)
Definition assigned_to (name : string) (S : vrdMetadataSet) : Prop :=
  String.prefix "PostProcessing" (getSetName S) = true
  /\ name ∈ map getName (getObjects S).

#[global] Instance assigned_to_dec (name : string) (S : vrdMetadataSet) :
  Decision (assigned_to name S).
Proof. unfold assigned_to. apply _. Defined.

(** What the script sets up once and only reads afterwards, together with
    the camera position, which it reads but never writes. *)
Definition same_setup (s s' : PostProcessingController) : Prop :=
  isActive s' = isActive s
  /\ postProcessingVolumes s' = postProcessingVolumes s
  /\ postProcessingEffectMapping s' = postProcessingEffectMapping s
  /\ originalCameraParameters s' = originalCameraParameters s
  /\ getWorldTranslation (camera s') = getWorldTranslation (camera s).

(** How each frame along a path ended. *)
Fixpoint outcomes (path : list QVector3D) (s : PostProcessingController)
  : list (result unit) :=
  match path with
  | [] => []
  | p :: path' => fst (frame p s) :: outcomes path' (snd (frame p s))
  end.

(** Every metadata set of the mapping has both camera entries, and both
    hold numbers. *)
Definition complete_mapping (s : PostProcessingController) : Prop :=
  forall name S,
    postProcessingEffectMapping s !! name = Some S ->
    (exists f, entries S !! "camera:exposure" = Some (PyFloat f))
    /\ (exists f, entries S !! "camera:saturation" = Some (PyFloat f)).

(** Both targets hold floats. *)
Definition float_targets (s : PostProcessingController) : Prop :=
  exists te ts, exposureTarget s = PyFloat te /\ saturationTarget s = PyFloat ts.

(** The lines printed while the scan yields [acts] frame after frame,
    starting with [stored] as the stored volume: one line at each change. *)
Fixpoint transition_lines (stored : option vrdNode) (acts : list (option vrdNode))
  : list string :=
  match acts with
  | [] => []
  | act :: acts' =>
      (if node_ne stored act then [transition_line act] else [])
      ++ transition_lines act acts'
  end.

(** * Properties *)

(** ** Float comparisons *)

Lemma SFcompare_antisym (a b : spec_float) :
  SFcompare b a = CompOpp <$> SFcompare a b.
Proof.
  destruct a as [sa|sa| |sa ma ea], b as [sb|sb| |sb mb eb]; simpl;
    try reflexivity; try (destruct sa; reflexivity); try (destruct sb; reflexivity);
    try (destruct sa, sb; reflexivity).
  change (PosDef.Pos.compare_cont Eq mb ma) with (Pos.compare mb ma).
  change (PosDef.Pos.compare_cont Eq ma mb) with (Pos.compare ma mb).
  rewrite (Z.compare_antisym ea eb), (Pos.compare_antisym ma mb).
  destruct sa, sb; simpl; try reflexivity;
    destruct (ea ?= eb)%Z; simpl; try reflexivity;
    destruct (ma ?= mb)%positive; reflexivity.
Qed.

(** [a <= b] excludes [b < a], hence [not (a > b)]. *)
Lemma float_leb_not_gt (a b : float) :
  (a <=? b)%float = true -> float_gt a b = false.
Proof.
  unfold float_gt. rewrite FloatAxioms.leb_spec, FloatAxioms.ltb_spec.
  unfold SFleb, SFltb. rewrite (SFcompare_antisym (Prim2SF a) (Prim2SF b)).
  destruct (SFcompare (Prim2SF a) (Prim2SF b)) as [[]|]; simpl; congruence.
Qed.

(** [a == b] excludes both [a < b] and [b < a]. *)
Lemma float_eqb_not_lt (a b : float) :
  (a =? b)%float = true -> (a <? b)%float = false /\ (b <? a)%float = false.
Proof.
  rewrite FloatAxioms.eqb_spec, !FloatAxioms.ltb_spec.
  unfold SFeqb, SFltb. rewrite (SFcompare_antisym (Prim2SF a) (Prim2SF b)).
  destruct (SFcompare (Prim2SF a) (Prim2SF b)) as [[]|]; simpl; split; congruence.
Qed.

Lemma float_ltb_irrefl (a : float) : (a <? a)%float = false.
Proof.
  rewrite FloatAxioms.ltb_spec. unfold SFltb.
  pose proof (SFcompare_antisym (Prim2SF a) (Prim2SF a)) as H.
  destruct (SFcompare (Prim2SF a) (Prim2SF a)) as [[]|]; simpl in H; congruence.
Qed.

(** ** C2: the containment test *)

Lemma on_bound_not_lt (a b : float) :
  on_bound a b -> (a <? b)%float = false /\ (b <? a)%float = false.
Proof.
  intros [-> | H].
  - split; apply float_ltb_irrefl.
  - now apply float_eqb_not_lt.
Qed.

Lemma chained_lt_true (a b c : float) :
  chained_lt a b c = true <-> (a <? b)%float = true /\ (b <? c)%float = true.
Proof. unfold chained_lt. apply andb_true_iff. Qed.

Lemma chained_lt_on_bound (a b c : float) :
  on_bound b a \/ on_bound b c -> chained_lt a b c = false.
Proof.
  unfold chained_lt. intros [H | H]; apply on_bound_not_lt in H as [H1 H2].
  - now rewrite H2.
  - rewrite H1. apply andb_false_r.
Qed.

(** C2. [isCameraInsideBoundingBox] is true exactly when, on each of the
    three axes, min < position < max with both comparisons strict; a
    position that lies on a bound of the box on some axis is outside. *)
Theorem isCameraInsideBoundingBox_strict (cam : vrdCameraNode) (vol : vrdNode) :
  let p := getWorldTranslation cam in
  let lo := getMin (getBoundingBox vol) in
  let hi := getMax (getBoundingBox vol) in
  (isCameraInsideBoundingBox cam vol = true <->
     ((x lo <? x p)%float = true /\ (x p <? x hi)%float = true) /\
     ((y lo <? y p)%float = true /\ (y p <? y hi)%float = true) /\
     ((z lo <? z p)%float = true /\ (z p <? z hi)%float = true))
  /\
  (on_bound (x p) (x lo) \/ on_bound (x p) (x hi) \/
   on_bound (y p) (y lo) \/ on_bound (y p) (y hi) \/
   on_bound (z p) (z lo) \/ on_bound (z p) (z hi) ->
   isCameraInsideBoundingBox cam vol = false).
Proof.
  intros p lo hi. unfold isCameraInsideBoundingBox. fold p lo hi. split.
  - rewrite !andb_true_iff, !chained_lt_true. tauto.
  - intros H.
    assert (chained_lt (x lo) (x p) (x hi) = false \/
            chained_lt (y lo) (y p) (y hi) = false \/
            chained_lt (z lo) (z p) (z hi) = false) as [E | [E | E]].
    { destruct H as [H | [H | [H | [H | [H | H]]]]];
        [left | left | right; left | right; left | right; right | right; right];
        apply chained_lt_on_bound; tauto. }
    + now rewrite E.
    + rewrite E. now rewrite andb_false_r.
    + rewrite E. now rewrite andb_false_r.
Qed.

(** A camera on the face [x = 1] of the unit-two box: reported outside. *)
Lemma isCameraInsideBoundingBox_strict_witness :
  isCameraInsideBoundingBox
    (mkCamera (mkVec 1 2 2) 0 0)
    (mkNode 1 "Box" (mkBox (mkVec 1 1 1) (mkVec 3 3 3))) = false.
Proof.
  apply (isCameraInsideBoundingBox_strict
           (mkCamera (mkVec 1 2 2) 0 0)
           (mkNode 1 "Box" (mkBox (mkVec 1 1 1) (mkVec 3 3 3)))).
  left. left. reflexivity.
Defined.

Example inside_unit_box :
  isCameraInsideBoundingBox
    (mkCamera (mkVec 2 2 2) 0 0)
    (mkNode 1 "Box" (mkBox (mkVec 1 1 1) (mkVec 3 3 3))) = true.
Proof. reflexivity. Qed.

(** ** C1: the blend step *)

Ltac unfold_py :=
  unfold bind, gets, modify, lift, ret, raise, print, dict_getitem in *.

(** With float targets the step returns normally and changes nothing but
    the two camera values, each by the rule applied to its own target. *)
Lemma smoothCameraParameterUpdate_floats (s : PostProcessingController) (te ts : float) :
  exposureTarget s = PyFloat te ->
  saturationTarget s = PyFloat ts ->
  smoothCameraParameterUpdate s =
    (Ok tt,
     set_camera
       (mkCamera (getWorldTranslation (camera s))
          (blend_spec te (getExposure (camera s)))
          (blend_spec ts (getColorCorrectionSaturation (camera s))))
       s).
Proof.
  intros He Hs. unfold smoothCameraParameterUpdate, blend_spec. unfold_py.
  rewrite He, Hs. simpl.
  destruct s as [a [p ce cs] vols mp orig et st last out]; simpl in *.
  destruct (float_gt (abs (te - ce)) 0.1), (float_gt (abs (ts - cs)) 0.1);
    reflexivity.
Qed.

Lemma blend_spec_fixed (target current : float) :
  (abs (target - current) <=? 0.1)%float = true ->
  blend_spec target current = current.
Proof.
  intros H. unfold blend_spec. simpl. now rewrite (float_leb_not_gt _ _ H).
Qed.

Lemma smoothN_exposure_fixed (n : nat) :
  forall (s : PostProcessingController) (te ts : float),
    exposureTarget s = PyFloat te ->
    saturationTarget s = PyFloat ts ->
    (abs (te - getExposure (camera s)) <=? 0.1)%float = true ->
    getExposure (camera (smoothN n s)) = getExposure (camera s).
Proof.
  induction n as [|n IH]; intros s te ts He Hs Hd; [reflexivity|].
  simpl. rewrite (smoothCameraParameterUpdate_floats s te ts He Hs). simpl.
  rewrite (IH _ te ts); simpl; try assumption.
  - now apply blend_spec_fixed.
  - now rewrite (blend_spec_fixed _ _ Hd).
Qed.

Lemma smoothN_saturation_fixed (n : nat) :
  forall (s : PostProcessingController) (te ts : float),
    exposureTarget s = PyFloat te ->
    saturationTarget s = PyFloat ts ->
    (abs (ts - getColorCorrectionSaturation (camera s)) <=? 0.1)%float = true ->
    getColorCorrectionSaturation (camera (smoothN n s)) =
    getColorCorrectionSaturation (camera s).
Proof.
  induction n as [|n IH]; intros s te ts He Hs Hd; [reflexivity|].
  simpl. rewrite (smoothCameraParameterUpdate_floats s te ts He Hs). simpl.
  rewrite (IH _ te ts); simpl; try assumption.
  - now apply blend_spec_fixed.
  - now rewrite (blend_spec_fixed _ _ Hd).
Qed.

Lemma PyVal_cases (v : PyVal) : (exists f, v = PyFloat f) \/ not_a_number v.
Proof. destruct v; simpl; eauto. Qed.

(** A target that is no number makes the blend step raise before it writes
    anything. *)
Lemma smoothCameraParameterUpdate_not_a_number (s : PostProcessingController) :
  not_a_number (exposureTarget s) \/ not_a_number (saturationTarget s) ->
  smoothCameraParameterUpdate s = (Raise TypeError, s).
Proof.
  intros H. unfold smoothCameraParameterUpdate. unfold_py.
  destruct (exposureTarget s) as [|te| |]; simpl; try reflexivity.
  destruct (saturationTarget s) as [|ts| |]; simpl; try reflexivity.
  destruct H as [[] | []].
Qed.

Lemma smoothN_exposure_fixed_alone (n : nat) :
  forall (s : PostProcessingController) (te : float),
    exposureTarget s = PyFloat te ->
    (abs (te - getExposure (camera s)) <=? 0.1)%float = true ->
    getExposure (camera (smoothN n s)) = getExposure (camera s).
Proof.
  induction n as [|n IH]; intros s te He Hd; [reflexivity|].
  simpl. destruct (PyVal_cases (saturationTarget s)) as [[ts Hs] | Hs].
  - rewrite (smoothCameraParameterUpdate_floats s te ts He Hs). simpl.
    rewrite (IH _ te); simpl; try assumption.
    + now apply blend_spec_fixed.
    + now rewrite (blend_spec_fixed _ _ Hd).
  - rewrite (smoothCameraParameterUpdate_not_a_number s) by (right; exact Hs).
    simpl. now apply (IH s te).
Qed.

Lemma smoothN_saturation_fixed_alone (n : nat) :
  forall (s : PostProcessingController) (ts : float),
    saturationTarget s = PyFloat ts ->
    (abs (ts - getColorCorrectionSaturation (camera s)) <=? 0.1)%float = true ->
    getColorCorrectionSaturation (camera (smoothN n s)) =
    getColorCorrectionSaturation (camera s).
Proof.
  induction n as [|n IH]; intros s ts Hs Hd; [reflexivity|].
  simpl. destruct (PyVal_cases (exposureTarget s)) as [[te He] | He].
  - rewrite (smoothCameraParameterUpdate_floats s te ts He Hs). simpl.
    rewrite (IH _ ts); simpl; try assumption.
    + now apply blend_spec_fixed.
    + now rewrite (blend_spec_fixed _ _ Hd).
  - rewrite (smoothCameraParameterUpdate_not_a_number s) by (left; exact He).
    simpl. now apply (IH s ts).
Qed.

(** C1 fails as worded.  In [exposure_only_entered] the exposure target is
    2.0 and the exposure 1.0, so the distance is above 0.1 and the rule asks
    for 1.1; but the saturation target holds [None], the step raises on the
    saturation difference before it writes anything, and the exposure is
    still 1.0. *)
Lemma blend_waits_for_the_other_target :
  exposureTarget exposure_only_entered = PyFloat 2
  /\ saturationTarget exposure_only_entered = PyNone
  /\ getExposure (camera exposure_only_entered) = 1%float
  /\ float_gt (abs (2 - 1)) 0.1 = true
  /\ blend_spec 2 1 = 1.1%float
  /\ smoothCameraParameterUpdate exposure_only_entered =
       (Raise TypeError, exposure_only_entered)
  /\ getExposure (camera (snd (smoothCameraParameterUpdate exposure_only_entered))) =
       1%float
  /\ ~ blends_each_parameter_alone exposure_only_entered.
Proof.
  assert (smoothCameraParameterUpdate exposure_only_entered =
          (Raise TypeError, exposure_only_entered)) as Hraise.
  { apply smoothCameraParameterUpdate_not_a_number. right. vm_compute. exact I. }
  split; [vm_compute; reflexivity|]. split; [vm_compute; reflexivity|].
  split; [vm_compute; reflexivity|]. split; [vm_compute; reflexivity|].
  split; [vm_compute; reflexivity|]. split; [exact Hraise|].
  split; [rewrite Hraise; vm_compute; reflexivity|].
  intros [H _]. specialize (H 2%float eq_refl).
  rewrite Hraise in H. vm_compute in H. discriminate H.
Qed.

(** C1, amended.  With two float targets one call of
    [smoothCameraParameterUpdate] replaces the camera's exposure and
    saturation each by the smoothing rule applied to its own target (current
    + (target - current) * 0.1 when abs(target - current) > 0.1, the current
    value otherwise) and changes nothing else.  When either target is no
    number the call raises [TypeError] and changes neither value.  A value
    with abs(target - current) <= 0.1 stays as it is under any number of
    further calls, whatever the other target holds. *)
Theorem smoothCameraParameterUpdate_joint_rule (s : PostProcessingController) :
  let ce := getExposure (camera s) in
  let cs := getColorCorrectionSaturation (camera s) in
  (forall te ts,
      exposureTarget s = PyFloat te ->
      saturationTarget s = PyFloat ts ->
      smoothCameraParameterUpdate s =
        (Ok tt,
         set_camera
           (mkCamera (getWorldTranslation (camera s))
              (if float_gt (abs (te - ce)) 0.1 then (ce + (te - ce) * 0.1)%float else ce)
              (if float_gt (abs (ts - cs)) 0.1 then (cs + (ts - cs) * 0.1)%float else cs))
           s))
  /\ (not_a_number (exposureTarget s) \/ not_a_number (saturationTarget s) ->
      smoothCameraParameterUpdate s = (Raise TypeError, s))
  /\ (forall te,
        exposureTarget s = PyFloat te ->
        (abs (te - ce) <=? 0.1)%float = true ->
        forall n, getExposure (camera (smoothN n s)) = ce)
  /\ (forall ts,
        saturationTarget s = PyFloat ts ->
        (abs (ts - cs) <=? 0.1)%float = true ->
        forall n, getColorCorrectionSaturation (camera (smoothN n s)) = cs).
Proof.
  intros ce cs. split; [|split; [|split]].
  - intros te ts He Hs. apply (smoothCameraParameterUpdate_floats s te ts He Hs).
  - apply smoothCameraParameterUpdate_not_a_number.
  - intros te He Hd n. now apply (smoothN_exposure_fixed_alone n s te).
  - intros ts Hs Hd n. now apply (smoothN_saturation_fixed_alone n s ts).
Qed.

(** Exposure within 0.1 of its target stays put while saturation still
    moves toward its own target; and it stays put as well when the
    saturation target is a string. *)
Lemma smoothCameraParameterUpdate_joint_rule_witness :
  let s := mkController true (mkCamera (mkVec 0 0 0) 1 0) [] ∅ ∅
             (PyFloat 1.05) (PyFloat 10) None [] in
  let s' := mkController true (mkCamera (mkVec 0 0 0) 1 0) [] ∅ ∅
              (PyFloat 1.05) (PyStr "10") None [] in
  smoothCameraParameterUpdate s =
    (Ok tt, set_camera (mkCamera (mkVec 0 0 0) 1 1) s)
  /\ getExposure (camera (smoothN 5 s)) = 1%float
  /\ smoothCameraParameterUpdate s' = (Raise TypeError, s')
  /\ getExposure (camera (smoothN 5 s')) = 1%float.
Proof.
  intros s s'.
  destruct (smoothCameraParameterUpdate_joint_rule s) as (H1 & _ & H3 & _).
  destruct (smoothCameraParameterUpdate_joint_rule s') as (_ & K2 & K3 & _).
  split; [exact (H1 1.05%float 10%float eq_refl eq_refl)|].
  split; [exact (H3 1.05%float eq_refl eq_refl 5)|].
  split; [apply K2; right; exact I|].
  exact (K3 1.05%float eq_refl eq_refl 5).
Defined.

(** ** C8: convergence from 0 toward 10 *)

Lemma smoothN_add (n k : nat) (s : PostProcessingController) :
  smoothN (n + k) s = smoothN k (smoothN n s).
Proof. revert s. induction n as [|n IH]; intros s; simpl; [reflexivity | apply IH]. Qed.

Lemma moving_steps (n : nat) : n < 44 -> moving_step n = true.
Proof.
  intros Hn.
  assert (forallb moving_step (seq 0 44) = true) as H by (vm_compute; reflexivity).
  rewrite forallb_forall in H. apply H. apply in_seq. lia.
Qed.

Lemma exposureAt_stopped (n : nat) : 44 <= n -> exposureAt n = exposureAt 44.
Proof.
  intros Hn. replace n with (44 + (n - 44)) by lia.
  unfold exposureAt. rewrite smoothN_add.
  apply (smoothN_exposure_fixed _ _ 10 10); vm_compute; reflexivity.
Qed.

(** C8. From exposure 0 with target 10 the blend visits 0, 1.0, 1.9, 2.71;
    for the first 44 calls the distance to the target is above 0.1 and
    strictly shrinks with each call, the exposure strictly grows and stays
    below 10; after 44 calls the distance is at most 0.1 and the exposure
    never changes again. *)
Theorem smooth_convergence_0_to_10 :
  (exposureAt 0 = 0 /\ exposureAt 1 = 1 /\ exposureAt 2 = 1.9 /\ exposureAt 3 = 2.71)%float
  /\ (forall n, n < 44 ->
        (distanceAt (S n) <? distanceAt n)%float = true
        /\ float_gt (distanceAt n) 0.1 = true
        /\ (exposureAt n <? exposureAt (S n))%float = true)
  /\ (distanceAt 44 <=? 0.1)%float = true
  /\ (forall n, 44 <= n ->
        exposureAt n = exposureAt 44 /\ distanceAt n = distanceAt 44)
  /\ (forall n, (exposureAt n <? 10)%float = true).
Proof.
  split; [|split; [|split; [|split]]].
  - vm_compute. repeat split; reflexivity.
  - intros n Hn. pose proof (moving_steps n Hn) as H.
    unfold moving_step in H. rewrite !andb_true_iff in H. tauto.
  - vm_compute. reflexivity.
  - intros n Hn. unfold distanceAt. now rewrite (exposureAt_stopped n Hn).
  - intros n. destruct (le_lt_dec 44 n) as [Hn | Hn].
    + rewrite (exposureAt_stopped n Hn). vm_compute. reflexivity.
    + destruct n as [|n]; [vm_compute; reflexivity|].
      assert (n < 44) as Hn' by lia.
      pose proof (moving_steps n Hn') as H.
      unfold moving_step in H. rewrite !andb_true_iff in H. tauto.
Qed.

(** ** C3: the scan for the active volume *)

Lemma scanVolumes_snoc (cam : vrdCameraNode) (vols : list vrdNode) (v : vrdNode) :
  scanVolumes cam (vols ++ [v]) =
    if isCameraInsideBoundingBox cam v then Some v else scanVolumes cam vols.
Proof. unfold scanVolumes. now rewrite fold_left_app. Qed.

Lemma scanVolumes_Some (cam : vrdCameraNode) (vols : list vrdNode) (v : vrdNode) :
  scanVolumes cam vols = Some v <->
  exists before after,
    vols = before ++ v :: after
    /\ isCameraInsideBoundingBox cam v = true
    /\ Forall (fun u => isCameraInsideBoundingBox cam u = false) after.
Proof.
  induction vols as [|u vols IH] using rev_ind.
  - split; [discriminate|]. intros (b & a & E & _). now destruct b.
  - rewrite scanVolumes_snoc.
    destruct (isCameraInsideBoundingBox cam u) eqn:Hu.
    + split.
      * intros [= <-]. exists vols, []. auto.
      * intros (b & a & E & Hv & Ha).
        destruct a as [|w a _] using rev_ind.
        -- apply app_inj_tail in E as [_ ->]. reflexivity.
        -- rewrite app_comm_cons, app_assoc in E.
           apply app_inj_tail in E as [_ ->].
           apply Forall_app in Ha as [_ Hw]. inversion Hw; congruence.
    + rewrite IH. split.
      * intros (b & a & -> & Hv & Ha). exists b, (a ++ [u]).
        rewrite <- app_assoc. simpl. repeat split; auto.
        apply Forall_app. auto.
      * intros (b & a & E & Hv & Ha).
        destruct a as [|w a _] using rev_ind.
        -- apply app_inj_tail in E as [_ ->]. congruence.
        -- rewrite app_comm_cons, app_assoc in E.
           apply app_inj_tail in E as [-> ->].
           apply Forall_app in Ha as [Ha _]. eauto.
Qed.

Lemma scanVolumes_None (cam : vrdCameraNode) (vols : list vrdNode) :
  scanVolumes cam vols = None <->
  Forall (fun u => isCameraInsideBoundingBox cam u = false) vols.
Proof.
  induction vols as [|u vols IH] using rev_ind.
  - split; [constructor | reflexivity].
  - rewrite scanVolumes_snoc, Forall_app, Forall_singleton.
    destruct (isCameraInsideBoundingBox cam u); split;
      try discriminate; try tauto.
    intros [_ ?]. discriminate.
Qed.

Lemma scanVolumes_last_filter (cam : vrdCameraNode) (vols : list vrdNode) :
  scanVolumes cam vols =
    last (filter (fun v => isCameraInsideBoundingBox cam v = true) vols).
Proof.
  induction vols as [|u vols IH] using rev_ind; [reflexivity|].
  rewrite scanVolumes_snoc, filter_app, filter_cons, filter_nil.
  destruct (isCameraInsideBoundingBox cam u) eqn:Hu.
  - rewrite decide_True by reflexivity. now rewrite last_snoc.
  - rewrite decide_False by discriminate. now rewrite app_nil_r.
Qed.

(** C3. The scan walks the volumes in list order and yields the last one
    that contains the camera: it is [Some v] exactly when [v] sits in the
    list, contains the camera, and no later volume does; of two volumes that
    both contain the camera the later one is chosen; an empty list yields
    [None]. *)
Theorem scanVolumes_last_wins (cam : vrdCameraNode) :
  scanVolumes cam [] = None
  /\ (forall vols,
        scanVolumes cam vols =
          last (filter (fun v => isCameraInsideBoundingBox cam v = true) vols))
  /\ (forall vols v,
        scanVolumes cam vols = Some v <->
        exists before after,
          vols = before ++ v :: after
          /\ isCameraInsideBoundingBox cam v = true
          /\ Forall (fun u => isCameraInsideBoundingBox cam u = false) after)
  /\ (forall vols,
        scanVolumes cam vols = None <->
        Forall (fun u => isCameraInsideBoundingBox cam u = false) vols)
  /\ (forall A B,
        isCameraInsideBoundingBox cam A = true ->
        isCameraInsideBoundingBox cam B = true ->
        scanVolumes cam [A; B] = Some B).
Proof.
  split; [reflexivity|]. split; [apply scanVolumes_last_filter|].
  split; [apply scanVolumes_Some|]. split; [apply scanVolumes_None|].
  intros A B HA HB. unfold scanVolumes. simpl. now rewrite HA, HB.
Qed.

(** ** The shape of one call of [loop] *)

Lemma loop_unfold (s : PostProcessingController) :
  loop s =
    if isActive s then
      ((onVolumeChange (scanVolumes (camera s) (postProcessingVolumes s)) ;;;
        modify (set_lastActiveProcessingVolume
                  (scanVolumes (camera s) (postProcessingVolumes s)))) ;;;
       smoothCameraParameterUpdate) s
    else smoothCameraParameterUpdate s.
Proof.
  unfold loop, onVolumeChange. unfold_py. simpl.
  destruct (isActive s); [|reflexivity].
  destruct (node_ne _ _); [|reflexivity].
  destruct (scanVolumes _ _); reflexivity.
Qed.

Lemma dict_contains_true {V} (d : gmap string V) (k : string) (v : V) :
  d !! k = Some v -> dict_contains d k = true.
Proof. intros H. unfold dict_contains. apply bool_decide_eq_true. eauto. Qed.

Lemma dict_contains_false {V} (d : gmap string V) (k : string) :
  d !! k = None -> dict_contains d k = false.
Proof.
  intros H. unfold dict_contains. apply bool_decide_eq_false.
  rewrite H. intros [? ?]. discriminate.
Qed.

(** The volume's name is a key of the mapping: both targets are assigned. *)
Lemma setPostProcessingEffects_mapped
    (v : vrdNode) (s : PostProcessingController) (effect : vrdMetadataSet) :
  postProcessingEffectMapping s !! getName v = Some effect ->
  setPostProcessingEffects v s =
    (Ok tt,
     set_saturationTarget (getValue effect "camera:saturation")
       (set_exposureTarget (getValue effect "camera:exposure")
          (set_stdout (stdout s ++ [entered_msg v]) s))).
Proof.
  intros H. unfold setPostProcessingEffects. unfold_py. simpl.
  rewrite (dict_contains_true _ _ _ H), H. reflexivity.
Qed.

(** The volume's name is no key of the mapping: only the line is printed. *)
Lemma setPostProcessingEffects_unmapped (v : vrdNode) (s : PostProcessingController) :
  postProcessingEffectMapping s !! getName v = None ->
  setPostProcessingEffects v s =
    (Ok tt, set_stdout (stdout s ++ [entered_msg v]) s).
Proof.
  intros H. unfold setPostProcessingEffects. unfold_py. simpl.
  now rewrite (dict_contains_false _ _ H).
Qed.

Lemma resetPostProcessingEffects_ok (s : PostProcessingController) (e0 s0 : float) :
  originalCameraParameters s !! "exposure" = Some e0 ->
  originalCameraParameters s !! "saturation" = Some s0 ->
  resetPostProcessingEffects s =
    (Ok tt,
     set_saturationTarget (PyFloat s0)
       (set_exposureTarget (PyFloat e0)
          (set_stdout (stdout s ++ [left_msg]) s))).
Proof.
  intros He Hs. unfold resetPostProcessingEffects. unfold_py. simpl.
  rewrite He. simpl. rewrite Hs. reflexivity.
Qed.

(** Whatever the targets hold, a blend step touches the camera only. *)
Lemma smoothCameraParameterUpdate_frame (s : PostProcessingController) :
  exists cam, snd (smoothCameraParameterUpdate s) = set_camera cam s
              /\ getWorldTranslation cam = getWorldTranslation (camera s).
Proof.
  destruct (PyVal_cases (exposureTarget s)) as [[te He] | He].
  - destruct (PyVal_cases (saturationTarget s)) as [[ts Hs] | Hs].
    + rewrite (smoothCameraParameterUpdate_floats s te ts He Hs). simpl. eauto.
    + rewrite (smoothCameraParameterUpdate_not_a_number s) by (right; exact Hs).
      exists (camera s). split; [|reflexivity]. now destruct s.
  - rewrite (smoothCameraParameterUpdate_not_a_number s) by (left; exact He).
    exists (camera s). split; [|reflexivity]. now destruct s.
Qed.

(** With a target that holds [None] the blend step raises and changes
    nothing. *)
Lemma smoothCameraParameterUpdate_None (s : PostProcessingController) :
  exposureTarget s = PyNone \/ saturationTarget s = PyNone ->
  smoothCameraParameterUpdate s = (Raise TypeError, s).
Proof.
  intros H. apply smoothCameraParameterUpdate_not_a_number.
  destruct H as [-> | ->]; [left | right]; exact I.
Qed.

(** The entry branch of a frame: the camera is in [v] and [v] is not the
    volume of the frame before. *)
Lemma loop_entry (s : PostProcessingController) (v : vrdNode) :
  isActive s = true ->
  scanVolumes (camera s) (postProcessingVolumes s) = Some v ->
  node_ne (lastActiveProcessingVolume s) (Some v) = true ->
  loop s =
    (setPostProcessingEffects v ;;;
     modify (set_lastActiveProcessingVolume (Some v)) ;;;
     smoothCameraParameterUpdate) s.
Proof.
  intros Ha Hscan Hne. rewrite loop_unfold, Ha, Hscan.
  unfold onVolumeChange. unfold_py. rewrite Hne.
  destruct (setPostProcessingEffects v s) as [[[]|e] s']; reflexivity.
Qed.

(** The exit branch of a frame. *)
Lemma loop_exit (s : PostProcessingController) (v : vrdNode) :
  isActive s = true ->
  scanVolumes (camera s) (postProcessingVolumes s) = None ->
  lastActiveProcessingVolume s = Some v ->
  loop s =
    (resetPostProcessingEffects ;;;
     modify (set_lastActiveProcessingVolume None) ;;;
     smoothCameraParameterUpdate) s.
Proof.
  intros Ha Hscan Hlast. rewrite loop_unfold, Ha, Hscan.
  unfold onVolumeChange. unfold_py. rewrite Hlast. simpl.
  destruct (resetPostProcessingEffects s) as [[[]|e] s']; reflexivity.
Qed.

(** A frame without change of active volume. *)
Lemma loop_same (s : PostProcessingController) :
  isActive s = true ->
  node_ne (lastActiveProcessingVolume s)
          (scanVolumes (camera s) (postProcessingVolumes s)) = false ->
  loop s =
    smoothCameraParameterUpdate
      (set_lastActiveProcessingVolume
         (scanVolumes (camera s) (postProcessingVolumes s)) s).
Proof.
  intros Ha Hne. rewrite loop_unfold, Ha.
  unfold onVolumeChange. unfold_py. now rewrite Hne.
Qed.

Lemma loop_entry_mapped
    (s : PostProcessingController) (v : vrdNode) (effect : vrdMetadataSet) :
  isActive s = true ->
  scanVolumes (camera s) (postProcessingVolumes s) = Some v ->
  node_ne (lastActiveProcessingVolume s) (Some v) = true ->
  postProcessingEffectMapping s !! getName v = Some effect ->
  loop s =
    smoothCameraParameterUpdate
      (set_lastActiveProcessingVolume (Some v)
         (set_saturationTarget (getValue effect "camera:saturation")
            (set_exposureTarget (getValue effect "camera:exposure")
               (set_stdout (stdout s ++ [entered_msg v]) s)))).
Proof.
  intros Ha Hscan Hne Hm. rewrite (loop_entry s v Ha Hscan Hne).
  unfold bind, modify. now rewrite (setPostProcessingEffects_mapped v s effect Hm).
Qed.

Lemma loop_entry_unmapped (s : PostProcessingController) (v : vrdNode) :
  isActive s = true ->
  scanVolumes (camera s) (postProcessingVolumes s) = Some v ->
  node_ne (lastActiveProcessingVolume s) (Some v) = true ->
  postProcessingEffectMapping s !! getName v = None ->
  loop s =
    smoothCameraParameterUpdate
      (set_lastActiveProcessingVolume (Some v)
         (set_stdout (stdout s ++ [entered_msg v]) s)).
Proof.
  intros Ha Hscan Hne Hm. rewrite (loop_entry s v Ha Hscan Hne).
  unfold bind, modify. now rewrite (setPostProcessingEffects_unmapped v s Hm).
Qed.

Lemma loop_exit_ok (s : PostProcessingController) (v : vrdNode) (e0 s0 : float) :
  isActive s = true ->
  scanVolumes (camera s) (postProcessingVolumes s) = None ->
  lastActiveProcessingVolume s = Some v ->
  originalCameraParameters s !! "exposure" = Some e0 ->
  originalCameraParameters s !! "saturation" = Some s0 ->
  loop s =
    smoothCameraParameterUpdate
      (set_lastActiveProcessingVolume None
         (set_saturationTarget (PyFloat s0)
            (set_exposureTarget (PyFloat e0)
               (set_stdout (stdout s ++ [left_msg]) s)))).
Proof.
  intros Ha Hscan Hlast He Hs. rewrite (loop_exit s v Ha Hscan Hlast).
  unfold bind, modify. now rewrite (resetPostProcessingEffects_ok s e0 s0 He Hs).
Qed.

(** ** C4: targets on entry *)

(** C4 fails as worded.  In [exposure_only_scene] the first frame is an
    entry transition; the saturation target held 1.0 and holds [None]
    afterwards although the set has no saturation entry, and the blend step
    of the frame raises. *)
Lemma entry_overwrites_missing_target :
  scanVolumes (camera exposure_only_scene) (postProcessingVolumes exposure_only_scene)
    = Some exposure_only_box
  /\ lastActiveProcessingVolume exposure_only_scene = None
  /\ postProcessingEffectMapping exposure_only_scene !! "Box" = Some exposure_only_set
  /\ entries exposure_only_set !! "camera:saturation" = None
  /\ saturationTarget exposure_only_scene = PyFloat 1
  /\ saturationTarget (snd (loop exposure_only_scene)) = PyNone
  /\ exposureTarget (snd (loop exposure_only_scene)) = PyFloat 2
  /\ fst (loop exposure_only_scene) = Raise TypeError
  /\ ~ entry_keeps_missing_targets exposure_only_scene.
Proof.
  assert (saturationTarget (snd (loop exposure_only_scene)) = PyNone) as Hsat
    by (vm_compute; reflexivity).
  repeat split; try (vm_compute; reflexivity).
  intros H.
  destruct (H exposure_only_box exposure_only_set) as [_ H2];
    try (vm_compute; reflexivity).
  rewrite Hsat in H2. specialize (H2 eq_refl). discriminate H2.
Qed.

Lemma snd_smooth_fields (s : PostProcessingController) :
  let s' := snd (smoothCameraParameterUpdate s) in
  isActive s' = isActive s
  /\ postProcessingVolumes s' = postProcessingVolumes s
  /\ postProcessingEffectMapping s' = postProcessingEffectMapping s
  /\ originalCameraParameters s' = originalCameraParameters s
  /\ exposureTarget s' = exposureTarget s
  /\ saturationTarget s' = saturationTarget s
  /\ lastActiveProcessingVolume s' = lastActiveProcessingVolume s
  /\ stdout s' = stdout s
  /\ getWorldTranslation (camera s') = getWorldTranslation (camera s).
Proof.
  destruct (smoothCameraParameterUpdate_frame s) as (cam & -> & Hp).
  simpl. now rewrite Hp.
Qed.

Lemma smooth_isActive s : isActive (snd (smoothCameraParameterUpdate s)) = isActive s.
Proof. apply snd_smooth_fields. Qed.
Lemma smooth_volumes s :
  postProcessingVolumes (snd (smoothCameraParameterUpdate s)) = postProcessingVolumes s.
Proof. apply snd_smooth_fields. Qed.
Lemma smooth_mapping s :
  postProcessingEffectMapping (snd (smoothCameraParameterUpdate s)) =
  postProcessingEffectMapping s.
Proof. apply snd_smooth_fields. Qed.
Lemma smooth_original s :
  originalCameraParameters (snd (smoothCameraParameterUpdate s)) =
  originalCameraParameters s.
Proof. apply snd_smooth_fields. Qed.
Lemma smooth_exposureTarget s :
  exposureTarget (snd (smoothCameraParameterUpdate s)) = exposureTarget s.
Proof. apply snd_smooth_fields. Qed.
Lemma smooth_saturationTarget s :
  saturationTarget (snd (smoothCameraParameterUpdate s)) = saturationTarget s.
Proof. apply snd_smooth_fields. Qed.
Lemma smooth_last s :
  lastActiveProcessingVolume (snd (smoothCameraParameterUpdate s)) =
  lastActiveProcessingVolume s.
Proof. apply snd_smooth_fields. Qed.
Lemma smooth_stdout s : stdout (snd (smoothCameraParameterUpdate s)) = stdout s.
Proof. apply snd_smooth_fields. Qed.
Lemma smooth_position s :
  getWorldTranslation (camera (snd (smoothCameraParameterUpdate s))) =
  getWorldTranslation (camera s).
Proof. apply snd_smooth_fields. Qed.

Create Rewrite HintDb smooth.
#[export] Hint Rewrite smooth_isActive smooth_volumes smooth_mapping smooth_original
  smooth_exposureTarget smooth_saturationTarget smooth_last smooth_stdout
  smooth_position : smooth.

(** C4, amended. On an entry transition into a volume whose name is a key of
    the effect mapping, both targets are assigned from the metadata set:
    each becomes what [getValue] yields for its key, the entry's value where
    the set has the key.  Targets are kept only when the volume's name is no
    key of the mapping. *)
Theorem entry_assigns_both_targets (s : PostProcessingController) (v : vrdNode) :
  isActive s = true ->
  scanVolumes (camera s) (postProcessingVolumes s) = Some v ->
  node_ne (lastActiveProcessingVolume s) (Some v) = true ->
  let s' := snd (loop s) in
  (forall effect,
      postProcessingEffectMapping s !! getName v = Some effect ->
      exposureTarget s' = getValue effect "camera:exposure"
      /\ saturationTarget s' = getValue effect "camera:saturation"
      /\ (forall value, entries effect !! "camera:exposure" = Some value ->
                        exposureTarget s' = value)
      /\ (forall value, entries effect !! "camera:saturation" = Some value ->
                        saturationTarget s' = value))
  /\ (postProcessingEffectMapping s !! getName v = None ->
      exposureTarget s' = exposureTarget s
      /\ saturationTarget s' = saturationTarget s).
Proof.
  intros Ha Hscan Hne s'. subst s'. split.
  - intros effect Hm. rewrite (loop_entry_mapped s v effect Ha Hscan Hne Hm).
    autorewrite with smooth. simpl.
    split; [reflexivity|]. split; [reflexivity|].
    split; intros value Hv; unfold getValue; now rewrite Hv.
  - intros Hm. rewrite (loop_entry_unmapped s v Ha Hscan Hne Hm).
    autorewrite with smooth. simpl. split; reflexivity.
Qed.

(** Entering the car interior: both targets come from its set. *)
Lemma entry_assigns_both_targets_witness :
  exposureTarget (snd (loop car_interior_scene)) = PyFloat 2
  /\ saturationTarget (snd (loop car_interior_scene)) = PyFloat 0.5.
Proof.
  destruct (entry_assigns_both_targets car_interior_scene car_interior_box)
    as [H _]; try (vm_compute; reflexivity).
  destruct (H car_interior_set) as (_ & _ & He & Hs); [vm_compute; reflexivity|].
  split; [apply He | apply Hs]; vm_compute; reflexivity.
Defined.

(** ** C5: targets on exit *)

(** C5. On a frame where the camera has left the volume of the frame before
    and is in no volume, both targets are set to the values read at start-up
    (the entries of [originalCameraParameters]), whatever the effect mapping
    of the volume left; the line is printed, the stored volume becomes
    [None] and the frame returns normally. *)
Theorem exit_resets_both_targets
    (s : PostProcessingController) (v : vrdNode) (e0 s0 : float) :
  isActive s = true ->
  lastActiveProcessingVolume s = Some v ->
  scanVolumes (camera s) (postProcessingVolumes s) = None ->
  originalCameraParameters s !! "exposure" = Some e0 ->
  originalCameraParameters s !! "saturation" = Some s0 ->
  let s' := snd (loop s) in
  exposureTarget s' = PyFloat e0
  /\ saturationTarget s' = PyFloat s0
  /\ lastActiveProcessingVolume s' = None
  /\ stdout s' = stdout s ++ [left_msg]
  /\ fst (loop s) = Ok tt.
Proof.
  intros Ha Hlast Hscan He Hs s'. subst s'.
  rewrite (loop_exit_ok s v e0 s0 Ha Hscan Hlast He Hs).
  autorewrite with smooth. simpl. repeat split.
  now rewrite (smoothCameraParameterUpdate_floats _ e0 s0).
Qed.

(** Leaving the exposure-only volume: exposure and saturation targets are
    both back at the start-up value 1. *)
Lemma exit_resets_both_targets_witness :
  exposureTarget exposure_only_left = PyFloat 2
  /\ saturationTarget exposure_only_left = PyNone
  /\ exposureTarget (snd (loop exposure_only_left)) = PyFloat 1
  /\ saturationTarget (snd (loop exposure_only_left)) = PyFloat 1.
Proof.
  split; [vm_compute; reflexivity|]. split; [vm_compute; reflexivity|].
  destruct (exit_resets_both_targets exposure_only_left exposure_only_box 1 1)
    as (He & Hs & _); try (vm_compute; reflexivity).
  split; [exact He | exact Hs].
Defined.

(** ** C6: a volume without effect mapping *)

(** C6. [setPostProcessingEffects] on a volume whose name is no key of the
    effect mapping returns normally and only prints its line.  A frame that
    enters such a volume is the blend step run on the controller with that
    line printed and the volume stored: both targets are what they were,
    and with float targets the frame returns normally. *)
Theorem entry_without_mapping (s : PostProcessingController) (v : vrdNode) :
  isActive s = true ->
  scanVolumes (camera s) (postProcessingVolumes s) = Some v ->
  node_ne (lastActiveProcessingVolume s) (Some v) = true ->
  postProcessingEffectMapping s !! getName v = None ->
  let s' := snd (loop s) in
  setPostProcessingEffects v s = (Ok tt, set_stdout (stdout s ++ [entered_msg v]) s)
  /\ loop s =
       smoothCameraParameterUpdate
         (set_lastActiveProcessingVolume (Some v)
            (set_stdout (stdout s ++ [entered_msg v]) s))
  /\ exposureTarget s' = exposureTarget s
  /\ saturationTarget s' = saturationTarget s
  /\ stdout s' = stdout s ++ [entered_msg v]
  /\ lastActiveProcessingVolume s' = Some v
  /\ (forall te ts,
        exposureTarget s = PyFloat te -> saturationTarget s = PyFloat ts ->
        fst (loop s) = Ok tt).
Proof.
  intros Ha Hscan Hne Hm s'. subst s'.
  split; [now apply setPostProcessingEffects_unmapped|].
  rewrite (loop_entry_unmapped s v Ha Hscan Hne Hm).
  autorewrite with smooth. simpl. repeat split.
  intros te ts He Hs. now rewrite (smoothCameraParameterUpdate_floats _ te ts).
Qed.

(** Entering the bare box: targets as before, one line, no exception. *)
Lemma entry_without_mapping_witness :
  exposureTarget (snd (loop bare_scene)) = PyFloat 1
  /\ saturationTarget (snd (loop bare_scene)) = PyFloat 1
  /\ stdout (snd (loop bare_scene)) = ["Camera entered post processing volume: Bare"]
  /\ fst (loop bare_scene) = Ok tt.
Proof.
  destruct (entry_without_mapping bare_scene bare_box)
    as (_ & _ & He & Hs & Hout & _ & Hok); try (vm_compute; reflexivity).
  split; [exact He|]. split; [exact Hs|]. split; [exact Hout|].
  apply (Hok 1%float 1%float); reflexivity.
Defined.

(** ** C7: an inactive controller *)

(** C7. With the controller inactive a frame is the blend step and nothing
    else: no volume is evaluated, the targets, the stored volume and the
    output stay as they were, and with float targets the camera values move
    by the smoothing rule toward those targets. *)
Theorem loop_inactive (s : PostProcessingController) :
  isActive s = false ->
  let s' := snd (loop s) in
  loop s = smoothCameraParameterUpdate s
  /\ exposureTarget s' = exposureTarget s
  /\ saturationTarget s' = saturationTarget s
  /\ lastActiveProcessingVolume s' = lastActiveProcessingVolume s
  /\ stdout s' = stdout s
  /\ isActive s' = false
  /\ (forall te ts,
        exposureTarget s = PyFloat te -> saturationTarget s = PyFloat ts ->
        fst (loop s) = Ok tt
        /\ getExposure (camera s') = blend_spec te (getExposure (camera s))
        /\ getColorCorrectionSaturation (camera s') =
             blend_spec ts (getColorCorrectionSaturation (camera s))).
Proof.
  intros Ha s'. subst s'. rewrite loop_unfold, Ha.
  autorewrite with smooth. repeat split; try assumption.
  all: rewrite (smoothCameraParameterUpdate_floats s te ts) by assumption;
    reflexivity.
Qed.

(** The frozen car interior scene: volume and targets stay, exposure moves. *)
Lemma loop_inactive_witness :
  lastActiveProcessingVolume (snd (loop car_interior_frozen)) = Some car_interior_box
  /\ exposureTarget (snd (loop car_interior_frozen)) = PyFloat 2
  /\ getExposure (camera car_interior_frozen) = 1.1%float
  /\ getExposure (camera (snd (loop car_interior_frozen))) = (1.1 + (2 - 1.1) * 0.1)%float.
Proof.
  destruct (loop_inactive car_interior_frozen)
    as (_ & He & _ & Hl & _ & _ & Hb); [vm_compute; reflexivity|].
  destruct (Hb 2%float 0.5%float) as (_ & Hx & _); try (vm_compute; reflexivity).
  split; [rewrite Hl; vm_compute; reflexivity|].
  split; [rewrite He; vm_compute; reflexivity|].
  split; [vm_compute; reflexivity|].
  rewrite Hx. vm_compute. reflexivity.
Defined.

(** ** C10: when the reset runs *)

Lemma entered_msg_not_left (v : vrdNode) : entered_msg v <> left_msg.
Proof. unfold entered_msg, left_msg. simpl. intros H. discriminate H. Qed.

Lemma setPostProcessingEffects_stdout (v : vrdNode) (s : PostProcessingController) :
  stdout (snd (setPostProcessingEffects v s)) = stdout s ++ [entered_msg v].
Proof.
  destruct (postProcessingEffectMapping s !! getName v) as [effect|] eqn:Hm.
  - now rewrite (setPostProcessingEffects_mapped v s effect Hm).
  - now rewrite (setPostProcessingEffects_unmapped v s Hm).
Qed.

Lemma resetPostProcessingEffects_stdout (s : PostProcessingController) :
  stdout (snd (resetPostProcessingEffects s)) = stdout s ++ [left_msg].
Proof.
  unfold resetPostProcessingEffects. unfold_py. simpl.
  destruct (originalCameraParameters s !! "exposure"); simpl; [|reflexivity].
  destruct (originalCameraParameters s !! "saturation"); reflexivity.
Qed.

Lemma loop_stdout (s : PostProcessingController) :
  isActive s = true ->
  stdout (snd (loop s)) = stdout s ++ frame_lines s.
Proof.
  intros Ha. rewrite loop_unfold, Ha. unfold frame_lines, onVolumeChange.
  unfold bind at 1 2 3. unfold gets at 1.
  destruct (node_ne _ _) eqn:Hne.
  - destruct (scanVolumes _ _) as [v|].
    + pose proof (setPostProcessingEffects_stdout v s) as H.
      destruct (setPostProcessingEffects v s) as [[[]|e] s1]; simpl in *;
        [unfold modify; autorewrite with smooth|]; exact H.
    + pose proof (resetPostProcessingEffects_stdout s) as H.
      destruct (resetPostProcessingEffects s) as [[[]|e] s1]; simpl in *;
        [unfold modify; autorewrite with smooth|]; exact H.
  - unfold ret, modify. autorewrite with smooth. simpl. now rewrite app_nil_r.
Qed.

Lemma app_singleton_inv {A} (l : list A) (a : A) (l' : list A) :
  l ++ l' = l ++ [a] -> l' = [a].
Proof. apply app_inv_head. Qed.

(** C10. On a frame of an active controller the reset runs (its line is
    printed) exactly when the camera is in no volume and a volume was stored
    by the frame before.  When the camera is in [B] while a different volume
    [A] was stored, the frame is [setPostProcessingEffects B], the store of
    [B] and the blend step; the one line printed is the entry line of [B]. *)
Theorem reset_iff_left_all_volumes (s : PostProcessingController) :
  isActive s = true ->
  let act := scanVolumes (camera s) (postProcessingVolumes s) in
  (stdout (snd (loop s)) = stdout s ++ [left_msg] <->
     act = None /\ lastActiveProcessingVolume s <> None)
  /\ (forall A B,
        lastActiveProcessingVolume s = Some A ->
        act = Some B ->
        getObjectId A <> getObjectId B ->
        loop s =
          (setPostProcessingEffects B ;;;
           modify (set_lastActiveProcessingVolume (Some B)) ;;;
           smoothCameraParameterUpdate) s
        /\ stdout (snd (loop s)) = stdout s ++ [entered_msg B]
        /\ (forall effect,
              postProcessingEffectMapping s !! getName B = Some effect ->
              exposureTarget (snd (loop s)) = getValue effect "camera:exposure"
              /\ saturationTarget (snd (loop s)) = getValue effect "camera:saturation")).
Proof.
  intros Ha act. split.
  - rewrite (loop_stdout s Ha). unfold frame_lines. fold act.
    destruct (lastActiveProcessingVolume s) as [u|], act as [v|]; cbn [node_ne].
    + destruct (negb _); split.
      * intros H%app_singleton_inv.
        exfalso. apply (entered_msg_not_left v). congruence.
      * intros [? _]. discriminate.
      * intros H%app_singleton_inv. discriminate.
      * intros [? _]. discriminate.
    + split; [intros _; split; [reflexivity | discriminate] | reflexivity].
    + split.
      * intros H%app_singleton_inv.
        exfalso. apply (entered_msg_not_left v). congruence.
      * intros [? _]. discriminate.
    + split.
      * intros H%app_singleton_inv. discriminate.
      * intros [_ H]. now contradiction H.
  - intros A B Hlast Hact Hid. subst act.
    assert (node_ne (lastActiveProcessingVolume s) (Some B) = true) as Hne.
    { rewrite Hlast. simpl. apply negb_true_iff. now apply N.eqb_neq. }
    split; [now apply loop_entry|].
    split.
    + rewrite (loop_stdout s Ha). unfold frame_lines. now rewrite Hact, Hne.
    + intros effect Hm. rewrite (loop_entry_mapped s B effect Ha Hact Hne Hm).
      autorewrite with smooth. simpl. split; reflexivity.
Qed.

(** From the left box straight into the right one: two entry lines, no
    exit line, targets of the right box. *)
Lemma reset_iff_left_all_volumes_witness :
  stdout (snd (loop two_box_crossed)) =
    ["Camera entered post processing volume: A";
     "Camera entered post processing volume: B"]
  /\ exposureTarget (snd (loop two_box_crossed)) = PyFloat 3
  /\ saturationTarget (snd (loop two_box_crossed)) = PyFloat 1.5.
Proof.
  destruct (reset_iff_left_all_volumes two_box_crossed) as [_ H];
    [vm_compute; reflexivity|].
  destruct (H left_box right_box) as (_ & Hout & Ht);
    [vm_compute; reflexivity | vm_compute; reflexivity | vm_compute; discriminate |].
  destruct (Ht right_set) as [He Hs]; [vm_compute; reflexivity|].
  split; [exact Hout|]. split; [exact He | exact Hs].
Defined.

(** ** C9: transitions along a path *)

Lemma isCameraInsideBoundingBox_contains (cam : vrdCameraNode) (v : vrdNode) :
  isCameraInsideBoundingBox cam v = contains v (getWorldTranslation cam).
Proof. reflexivity. Qed.

Lemma scanVolumes_activeAt (cam : vrdCameraNode) (volumes : list vrdNode) :
  scanVolumes cam volumes = activeAt volumes (getWorldTranslation cam).
Proof.
  unfold activeAt. induction volumes as [|v volumes IH] using rev_ind; [reflexivity|].
  now rewrite !scanVolumes_snoc, IH, !isCameraInsideBoundingBox_contains.
Qed.

Lemma node_ne_refl (a : option vrdNode) : node_ne a a = false.
Proof. destruct a as [v|]; simpl; [|reflexivity]. now rewrite N.eqb_refl. Qed.

Lemma init_ready cam objects metadataSets : ready (init cam objects metadataSets).
Proof. repeat split; simpl; eauto. Qed.

Lemma frame_effect (p : QVector3D) (s : PostProcessingController) :
  ready s ->
  let act := activeAt (postProcessingVolumes s) p in
  let s' := snd (frame p s) in
  ready s'
  /\ postProcessingVolumes s' = postProcessingVolumes s
  /\ lastActiveProcessingVolume s' = act
  /\ stdout s' =
       stdout s ++
       (if node_ne (lastActiveProcessingVolume s) act then [transition_line act] else []).
Proof.
  intros (Ha & [e0 He] & [s0 Hs]) act s'. subst s'. unfold frame.
  set (t := set_camera (setWorldTranslation p (camera s)) s).
  assert (scanVolumes (camera t) (postProcessingVolumes t) = act) as Hscan
    by (subst t; now rewrite scanVolumes_activeAt).
  assert (isActive t = true) as Hat by exact Ha.
  rewrite (loop_stdout t Hat). unfold frame_lines. rewrite Hscan.
  change (lastActiveProcessingVolume t) with (lastActiveProcessingVolume s).
  change (stdout t) with (stdout s).
  assert (forall u, u = snd (loop t) ->
            isActive u = true
            /\ originalCameraParameters u = originalCameraParameters s
            /\ postProcessingVolumes u = postProcessingVolumes s
            /\ lastActiveProcessingVolume u = act) as H.
  { intros u ->.
    destruct (node_ne (lastActiveProcessingVolume t) act) eqn:Hne.
    - destruct act as [v|] eqn:Hact.
      + destruct (postProcessingEffectMapping t !! getName v) as [effect|] eqn:Hm.
        * rewrite (loop_entry_mapped t v effect Hat Hscan Hne Hm).
          autorewrite with smooth. simpl. auto.
        * rewrite (loop_entry_unmapped t v Hat Hscan Hne Hm).
          autorewrite with smooth. simpl. auto.
      + destruct (lastActiveProcessingVolume t) as [v|] eqn:Hlast; [|discriminate].
        rewrite (loop_exit_ok t v e0 s0 Hat Hscan Hlast He Hs).
        autorewrite with smooth. simpl. auto.
    - rewrite <- Hscan in Hne. rewrite (loop_same t Hat Hne).
      autorewrite with smooth. simpl. auto. }
  destruct (H _ eq_refl) as (H1 & H2 & H3 & H4).
  split; [|split; [exact H3 | split; [exact H4 |]]].
  2: { destruct (node_ne _ _); [destruct act|]; reflexivity. }
  unfold ready. rewrite H1, H2. eauto.
Qed.

Lemma run_app (path1 path2 : list QVector3D) (s : PostProcessingController) :
  run (path1 ++ path2) s = run path2 (run path1 s).
Proof. unfold run. apply fold_left_app. Qed.

(** Frames during which the scan keeps finding the stored volume print
    nothing and keep it stored. *)
Lemma run_stay (act : option vrdNode) (path : list QVector3D) :
  forall s,
    ready s ->
    lastActiveProcessingVolume s = act ->
    Forall (fun p => activeAt (postProcessingVolumes s) p = act) path ->
    ready (run path s)
    /\ postProcessingVolumes (run path s) = postProcessingVolumes s
    /\ lastActiveProcessingVolume (run path s) = act
    /\ stdout (run path s) = stdout s.
Proof.
  induction path as [|p path IH]; intros s Hr Hlast Hall; [auto|].
  apply Forall_cons in Hall as [Hp Hrest].
  destruct (frame_effect p s Hr) as (Hr1 & Hv1 & Hl1 & Ho1).
  rewrite Hp in Hl1, Ho1. rewrite Hlast, node_ne_refl, app_nil_r in Ho1.
  change (run (p :: path) s) with (run path (snd (frame p s))).
  destruct (IH (snd (frame p s)) Hr1 Hl1) as (H1 & H2 & H3 & H4).
  { now rewrite Hv1. }
  rewrite H2, H4. auto.
Qed.

(** Frames that begin with another volume stored and during which the scan
    keeps finding [act]: one line, on the first of them. *)
Lemma run_change (act : option vrdNode) (path : list QVector3D) (s : PostProcessingController) :
  ready s ->
  path <> [] ->
  node_ne (lastActiveProcessingVolume s) act = true ->
  Forall (fun p => activeAt (postProcessingVolumes s) p = act) path ->
  ready (run path s)
  /\ postProcessingVolumes (run path s) = postProcessingVolumes s
  /\ lastActiveProcessingVolume (run path s) = act
  /\ stdout (run path s) = stdout s ++ [transition_line act].
Proof.
  intros Hr Hne Hchg Hall. destruct path as [|p path]; [congruence|].
  apply Forall_cons in Hall as [Hp Hrest].
  destruct (frame_effect p s Hr) as (Hr1 & Hv1 & Hl1 & Ho1).
  rewrite Hp in Hl1, Ho1. rewrite Hchg in Ho1.
  change (run (p :: path) s) with (run path (snd (frame p s))).
  destruct (run_stay _ path (snd (frame p s)) Hr1 Hl1) as (H1 & H2 & H3 & H4).
  { now rewrite Hv1. }
  rewrite H2, H4. auto.
Qed.

Lemma float_ltb_asym (a b : float) :
  (a <? b)%float = true -> (b <? a)%float = true -> False.
Proof.
  rewrite !FloatAxioms.ltb_spec. unfold SFltb.
  rewrite (SFcompare_antisym (Prim2SF a) (Prim2SF b)).
  destruct (SFcompare (Prim2SF a) (Prim2SF b)) as [[]|]; simpl; congruence.
Qed.

Lemma activeAt_pair (u v : vrdNode) (p : QVector3D) :
  activeAt [u; v] p =
    if contains v p then Some v else if contains u p then Some u else None.
Proof. reflexivity. Qed.

Section TwoVolumes.

Variables A B : vrdNode.

(** The boxes of [A] and [B] share no position. *)
Hypothesis disjoint : forall p, contains A p = true -> contains B p = true -> False.

Lemma activeAt_outside s p : registry A B s -> outside A B p ->
  activeAt (postProcessingVolumes s) p = None.
Proof.
  intros [-> | ->] [HA HB]; rewrite activeAt_pair; rewrite ?HA, ?HB; reflexivity.
Qed.

Lemma activeAt_A s p : registry A B s -> contains A p = true ->
  activeAt (postProcessingVolumes s) p = Some A.
Proof.
  intros Hreg HA.
  assert (contains B p = false) as HB.
  { destruct (contains B p) eqn:E; [|reflexivity]. now destruct (disjoint p). }
  destruct Hreg as [-> | ->]; rewrite activeAt_pair; rewrite ?HA, ?HB; reflexivity.
Qed.

Lemma activeAt_B s p : registry A B s -> contains B p = true ->
  activeAt (postProcessingVolumes s) p = Some B.
Proof.
  intros Hreg HB.
  assert (contains A p = false) as HA.
  { destruct (contains A p) eqn:E; [|reflexivity]. now destruct (disjoint p). }
  destruct Hreg as [-> | ->]; rewrite activeAt_pair; rewrite ?HA, ?HB; reflexivity.
Qed.

Lemma registry_kept s s' :
  postProcessingVolumes s' = postProcessingVolumes s -> registry A B s -> registry A B s'.
Proof. unfold registry. now intros ->. Qed.

(** The lines printed along outside, in [A], outside, in [B], outside. *)
Lemma path_lines (s : PostProcessingController) (o1 a o2 b o3 : list QVector3D) :
  ready s -> registry A B s ->
  lastActiveProcessingVolume s = None ->
  Forall (outside A B) o1 ->
  Forall (fun p => contains A p = true) a -> a <> [] ->
  Forall (outside A B) o2 -> o2 <> [] ->
  Forall (fun p => contains B p = true) b -> b <> [] ->
  Forall (outside A B) o3 -> o3 <> [] ->
  stdout (run (o1 ++ a ++ o2 ++ b ++ o3) s) =
    stdout s ++ [entered_msg A; left_msg; entered_msg B; left_msg]
  /\ lastActiveProcessingVolume (run (o1 ++ a ++ o2 ++ b ++ o3) s) = None.
Proof.
  intros Hr Hreg Hlast Ho1 Ha Hane Ho2 Ho2ne Hb Hbne Ho3 Ho3ne.
  rewrite !run_app.
  destruct (run_stay None o1 s Hr Hlast) as (Hr1 & Hv1 & Hl1 & Hout1).
  { eapply Forall_impl; [exact Ho1|]. intros p Hp. now apply activeAt_outside. }
  set (s1 := run o1 s) in *.
  pose proof (registry_kept s s1 Hv1 Hreg) as Hreg1.
  destruct (run_change (Some A) a s1 Hr1 Hane) as (Hr2 & Hv2 & Hl2 & Hout2).
  { now rewrite Hl1. }
  { eapply Forall_impl; [exact Ha|]. intros p Hp. now apply activeAt_A. }
  set (s2 := run a s1) in *.
  pose proof (registry_kept s1 s2 Hv2 Hreg1) as Hreg2.
  destruct (run_change None o2 s2 Hr2 Ho2ne) as (Hr3 & Hv3 & Hl3 & Hout3).
  { now rewrite Hl2. }
  { eapply Forall_impl; [exact Ho2|]. intros p Hp. now apply activeAt_outside. }
  set (s3 := run o2 s2) in *.
  pose proof (registry_kept s2 s3 Hv3 Hreg2) as Hreg3.
  destruct (run_change (Some B) b s3 Hr3 Hbne) as (Hr4 & Hv4 & Hl4 & Hout4).
  { now rewrite Hl3. }
  { eapply Forall_impl; [exact Hb|]. intros p Hp. now apply activeAt_B. }
  set (s4 := run b s3) in *.
  pose proof (registry_kept s3 s4 Hv4 Hreg3) as Hreg4.
  destruct (run_change None o3 s4 Hr4 Ho3ne) as (Hr5 & Hv5 & Hl5 & Hout5).
  { now rewrite Hl4. }
  { eapply Forall_impl; [exact Ho3|]. intros p Hp. now apply activeAt_outside. }
  split; [|exact Hl5].
  rewrite Hout5, Hout4, Hout3, Hout2, Hout1. simpl.
  now rewrite <- !app_assoc.
Qed.

End TwoVolumes.

(** C9. With a registry of two volumes [A] and [B] whose boxes share no
    position, a controller as [__init__] leaves it (active, nothing stored)
    and a camera path that is outside both, then in [A], then outside, then
    in [B], then outside (each stay at least one frame long, the first
    possibly empty) prints exactly four lines: entry of [A], exit, entry of
    [B], exit, in that order. *)
Theorem two_volume_path_transitions
    (A B : vrdNode) (s : PostProcessingController)
    (o1 a o2 b o3 : list QVector3D) :
  (forall p, contains A p = true -> contains B p = true -> False) ->
  ready s ->
  registry A B s ->
  lastActiveProcessingVolume s = None ->
  Forall (outside A B) o1 ->
  Forall (fun p => contains A p = true) a -> a <> [] ->
  Forall (outside A B) o2 -> o2 <> [] ->
  Forall (fun p => contains B p = true) b -> b <> [] ->
  Forall (outside A B) o3 -> o3 <> [] ->
  stdout (run (o1 ++ a ++ o2 ++ b ++ o3) s) =
    stdout s ++ [entered_msg A; left_msg; entered_msg B; left_msg].
Proof.
  intros Hd Hr Hreg Hlast Ho1 Ha Hane Ho2 Ho2ne Hb Hbne Ho3 Ho3ne.
  now apply (path_lines A B Hd s o1 a o2 b o3).
Qed.

Lemma left_right_disjoint (p : QVector3D) :
  contains left_box p = true -> contains right_box p = true -> False.
Proof.
  unfold contains, isCameraInsideBoundingBox, chained_lt. simpl.
  rewrite !andb_true_iff.
  intros [[[_ H1] _] _] [[[H2 _] _] _]. exact (float_ltb_asym _ _ H1 H2).
Qed.

(** A walk through the two boxes side by side. *)
Lemma two_volume_path_transitions_witness :
  stdout (run ([mkVec 5 5 5] ++ [mkVec 1 1 1; mkVec 1.5 1 1] ++ [mkVec 5 5 5]
               ++ [mkVec 3 1 1] ++ [mkVec 5 1 1; mkVec 5 5 5]) two_box_scene) =
    ["Camera entered post processing volume: A";
     "Camera left post processing volume";
     "Camera entered post processing volume: B";
     "Camera left post processing volume"].
Proof.
  apply (two_volume_path_transitions left_box right_box two_box_scene
           [mkVec 5 5 5] [mkVec 1 1 1; mkVec 1.5 1 1] [mkVec 5 5 5]
           [mkVec 3 1 1] [mkVec 5 1 1; mkVec 5 5 5]).
  - exact left_right_disjoint.
  - apply init_ready.
  - left. reflexivity.
  - reflexivity.
  - repeat constructor.
  - repeat constructor.
  - discriminate.
  - repeat constructor.
  - discriminate.
  - repeat constructor.
  - discriminate.
  - repeat constructor.
  - discriminate.
Defined.

(** * Further properties of the script *)

(** ** Floats: NaN, order, equal operands *)

Lemma Prim2SF_point_one :
  Prim2SF 0.1 = S754_finite false 7205759403792794 (-56).
Proof. vm_compute. reflexivity. Qed.

Lemma Prim2SF_nan : Prim2SF nan = S754_nan.
Proof. vm_compute. reflexivity. Qed.

Lemma float_ltb_nan_r (a : float) : (a <? nan)%float = false.
Proof.
  rewrite FloatAxioms.ltb_spec, Prim2SF_nan. unfold SFltb.
  destruct (Prim2SF a) as [[]|[]| |[] ? ?]; reflexivity.
Qed.

Lemma float_ltb_nan_l (a : float) : (nan <? a)%float = false.
Proof. rewrite FloatAxioms.ltb_spec, Prim2SF_nan. reflexivity. Qed.

Lemma SFltb_trans (a b c : spec_float) :
  SFltb a b = true -> SFltb b c = true -> SFltb a c = true.
Proof.
  unfold SFltb.
  destruct a as [sa|sa| |sa ma ea], b as [sb|sb| |sb mb eb], c as [sc|sc| |sc mc ec];
    simpl; try discriminate;
    try (destruct sa; discriminate); try (destruct sb; discriminate);
    try (destruct sc; discriminate);
    try (destruct sa, sb; discriminate); try (destruct sb, sc; discriminate);
    try (destruct sa, sc; discriminate);
    try (destruct sa, sb, sc; simpl; congruence).
  all: change (PosDef.Pos.compare_cont Eq) with Pos.compare.
  all: destruct sa, sb, sc; simpl; try congruence;
    try (destruct (ea ?= eb)%Z; try destruct (ma ?= mb)%positive; discriminate);
    try (destruct (eb ?= ec)%Z; try destruct (mb ?= mc)%positive; discriminate).
  all: destruct (Z.compare_spec ea eb), (Z.compare_spec eb ec), (Z.compare_spec ea ec);
    simpl; try congruence; try lia; subst;
    destruct (Pos.compare_spec ma mb), (Pos.compare_spec mb mc), (Pos.compare_spec ma mc);
    simpl; try congruence; try lia.
Qed.

Lemma float_ltb_trans (a b c : float) :
  (a <? b)%float = true -> (b <? c)%float = true -> (a <? c)%float = true.
Proof. rewrite !FloatAxioms.ltb_spec. apply SFltb_trans. Qed.

(** The distance of a float from itself is never above 0.1 (it is zero, or
    NaN for an infinity or NaN). *)
Lemma float_gt_self_distance (t : float) : float_gt (abs (t - t)) 0.1 = false.
Proof.
  unfold float_gt.
  rewrite FloatAxioms.ltb_spec, FloatAxioms.abs_spec, FloatAxioms.sub_spec, Prim2SF_point_one.
  unfold SF64sub, SFsub.
  destruct (Prim2SF t) as [[]|[]| |s m e]; try reflexivity.
  rewrite Z.sub_diag. reflexivity.
Qed.

Lemma blend_spec_same (t : float) : blend_spec t t = t.
Proof. unfold blend_spec. simpl. now rewrite float_gt_self_distance. Qed.

(** With NaN as target or as current value the distance is NaN, and nothing
    is above NaN. *)
Lemma float_gt_nan_distance (t c : float) :
  t = nan \/ c = nan -> float_gt (abs (t - c)) 0.1 = false.
Proof.
  intros H. unfold float_gt.
  rewrite FloatAxioms.ltb_spec, FloatAxioms.abs_spec, FloatAxioms.sub_spec, Prim2SF_point_one.
  unfold SF64sub, SFsub.
  destruct H as [-> | ->]; rewrite Prim2SF_nan.
  - reflexivity.
  - destruct (Prim2SF t) as [[]|[]| |s m e]; reflexivity.
Qed.

(** ** isCameraInsideBoundingBox: boxes without interior, NaN positions *)

Lemma chained_lt_needs_room (a b c : float) :
  (a <? c)%float = false -> chained_lt a b c = false.
Proof.
  intros H. unfold chained_lt.
  destruct (a <? b)%float eqn:Hab; [|reflexivity].
  destruct (b <? c)%float eqn:Hbc; [|reflexivity].
  rewrite (float_ltb_trans a b c Hab Hbc) in H. discriminate.
Qed.

(** X1. A box whose min is not strictly below its max on some axis (min
    above max, min equal to max, or a NaN bound) contains no camera
    position at all. *)
Theorem box_without_room_is_empty (vol : vrdNode) :
  let lo := getMin (getBoundingBox vol) in
  let hi := getMax (getBoundingBox vol) in
  (x lo <? x hi)%float = false \/ (y lo <? y hi)%float = false
    \/ (z lo <? z hi)%float = false ->
  forall cam, isCameraInsideBoundingBox cam vol = false.
Proof.
  intros lo hi H cam. unfold isCameraInsideBoundingBox. fold lo hi.
  destruct H as [H | [H | H]];
    rewrite (chained_lt_needs_room _ _ _ H); rewrite ?andb_false_r; reflexivity.
Qed.

(** A box with min above max on the y axis, tested from its middle. *)
Lemma box_without_room_is_empty_witness :
  isCameraInsideBoundingBox
    (mkCamera (mkVec 1 1 1) 0 0)
    (mkNode 1 "Flipped" (mkBox (mkVec 0 2 0) (mkVec 2 0 2))) = false.
Proof.
  apply (box_without_room_is_empty
           (mkNode 1 "Flipped" (mkBox (mkVec 0 2 0) (mkVec 2 0 2)))).
  right. left. reflexivity.
Defined.

Lemma chained_lt_nan (a c : float) : chained_lt a nan c = false.
Proof. unfold chained_lt. now rewrite float_ltb_nan_r. Qed.

Lemma nan_position_outside (cam : vrdCameraNode) (vol : vrdNode) :
  x (getWorldTranslation cam) = nan \/ y (getWorldTranslation cam) = nan
    \/ z (getWorldTranslation cam) = nan ->
  isCameraInsideBoundingBox cam vol = false.
Proof.
  intros H. unfold isCameraInsideBoundingBox.
  destruct H as [-> | [-> | ->]]; rewrite chained_lt_nan;
    rewrite ?andb_false_r; reflexivity.
Qed.

(** X2. A camera position with NaN on some axis is inside no volume: the
    scan over any list of volumes yields [None]. *)
Theorem nan_position_in_no_volume (cam : vrdCameraNode) (volumes : list vrdNode) :
  x (getWorldTranslation cam) = nan \/ y (getWorldTranslation cam) = nan
    \/ z (getWorldTranslation cam) = nan ->
  scanVolumes cam volumes = None.
Proof.
  intros H. apply scanVolumes_None. apply Forall_forall.
  intros vol _. now apply nan_position_outside.
Qed.

Lemma nan_position_in_no_volume_witness :
  scanVolumes (mkCamera (mkVec 1 nan 1) 0 0) [left_box; right_box] = None.
Proof.
  apply (nan_position_in_no_volume (mkCamera (mkVec 1 nan 1) 0 0) [left_box; right_box]).
  right. left. reflexivity.
Defined.

(** ** smoothCameraParameterUpdate: NaN and None *)

Lemma blend_spec_nan (t c : float) : t = nan \/ c = nan -> blend_spec t c = c.
Proof. intros H. unfold blend_spec. simpl. now rewrite float_gt_nan_distance. Qed.

Lemma smoothN_targets (n : nat) (s : PostProcessingController) :
  exposureTarget (smoothN n s) = exposureTarget s
  /\ saturationTarget (smoothN n s) = saturationTarget s.
Proof.
  revert s. induction n as [|n IH]; intros s; [split; reflexivity|].
  simpl. destruct (IH (snd (smoothCameraParameterUpdate s))) as [-> ->].
  now autorewrite with smooth.
Qed.

Lemma smoothN_exposure_nan (n : nat) :
  forall (s : PostProcessingController) (te ts : float),
    exposureTarget s = PyFloat te ->
    saturationTarget s = PyFloat ts ->
    te = nan \/ getExposure (camera s) = nan ->
    getExposure (camera (smoothN n s)) = getExposure (camera s).
Proof.
  induction n as [|n IH]; intros s te ts He Hs Hn; [reflexivity|].
  simpl. rewrite (smoothCameraParameterUpdate_floats s te ts He Hs).
  rewrite (IH _ te ts); simpl; try assumption.
  - now apply blend_spec_nan.
  - rewrite (blend_spec_nan _ _ Hn). exact Hn.
Qed.

(** X3. A NaN exposure target never reaches the camera, and a NaN camera
    exposure is never repaired: with NaN on either side the blend step
    leaves the exposure as it is, however often it runs. *)
Theorem nan_exposure_is_frozen
    (s : PostProcessingController) (te ts : float) (n : nat) :
  exposureTarget s = PyFloat te ->
  saturationTarget s = PyFloat ts ->
  te = nan \/ getExposure (camera s) = nan ->
  getExposure (camera (smoothN n s)) = getExposure (camera s).
Proof. apply smoothN_exposure_nan. Qed.

Lemma nan_exposure_is_frozen_witness :
  getExposure
    (camera (smoothN 3 (mkController true (mkCamera (mkVec 0 0 0) 1 0) [] ∅ ∅
                          (PyFloat nan) (PyFloat 10) None []))) = 1%float.
Proof.
  apply (nan_exposure_is_frozen
           (mkController true (mkCamera (mkVec 0 0 0) 1 0) [] ∅ ∅
              (PyFloat nan) (PyFloat 10) None []) nan 10 3);
    [reflexivity | reflexivity | left; reflexivity].
Defined.

(** X4. When either target holds [None] the blend step raises [TypeError]
    before it writes anything: neither camera value changes, also not the
    one whose own target is a float. *)
Theorem none_target_blocks_both_updates (s : PostProcessingController) :
  exposureTarget s = PyNone \/ saturationTarget s = PyNone ->
  smoothCameraParameterUpdate s = (Raise TypeError, s).
Proof. apply smoothCameraParameterUpdate_None. Qed.

(** Exposure 0 with target 10 would move, but the saturation target is
    [None]. *)
Lemma none_target_blocks_both_updates_witness :
  let s := mkController true (mkCamera (mkVec 0 0 0) 0 0) [] ∅ ∅
             (PyFloat 10) PyNone None [] in
  smoothCameraParameterUpdate s = (Raise TypeError, s).
Proof.
  intros s. apply (none_target_blocks_both_updates s). right. reflexivity.
Defined.

(** ** initializePostProcessingEffectMapping *)

Lemma assign_nodes_lookup (S : vrdMetadataSet) (nodes : list vrdNode) :
  forall (mapping : gmap string vrdMetadataSet) (name : string),
    fold_left (fun mapping node => <[getName node := S]> mapping) nodes mapping !! name =
      if decide (name ∈ map getName nodes) then Some S else mapping !! name.
Proof.
  induction nodes as [|node nodes IH]; intros mapping name; cbn [fold_left map].
  - rewrite decide_False; [reflexivity | apply not_elem_of_nil].
  - rewrite IH. destruct (decide (name ∈ map getName nodes)) as [Hin | Hnin].
    + rewrite decide_True; [reflexivity | now apply list_elem_of_further].
    + destruct (decide (getName node = name)) as [<- | Hne].
      * rewrite lookup_insert_eq. rewrite decide_True; [reflexivity | apply list_elem_of_here].
      * rewrite lookup_insert_ne by assumption.
        rewrite decide_False; [reflexivity|].
        intros [? | ?]%elem_of_cons; congruence.
Qed.

Lemma initializePostProcessingEffectMapping_snoc
    (metadataSets : list vrdMetadataSet) (S : vrdMetadataSet) :
  initializePostProcessingEffectMapping (metadataSets ++ [S]) =
    if String.prefix "PostProcessing" (getSetName S)
    then fold_left (fun mapping node => <[getName node := S]> mapping)
           (getObjects S) (initializePostProcessingEffectMapping metadataSets)
    else initializePostProcessingEffectMapping metadataSets.
Proof.
  unfold initializePostProcessingEffectMapping.
  rewrite filter_app, filter_cons, filter_nil.
  destruct (String.prefix "PostProcessing" (getSetName S)) eqn:Hp.
  - rewrite decide_True by reflexivity. now rewrite fold_left_app.
  - rewrite decide_False by discriminate. now rewrite app_nil_r.
Qed.

Lemma initializePostProcessingEffectMapping_lookup
    (metadataSets : list vrdMetadataSet) (name : string) :
  initializePostProcessingEffectMapping metadataSets !! name =
    last (filter (assigned_to name) metadataSets).
Proof.
  induction metadataSets as [|S sets IH] using rev_ind; [reflexivity|].
  rewrite initializePostProcessingEffectMapping_snoc, filter_app, filter_cons, filter_nil.
  destruct (String.prefix "PostProcessing" (getSetName S)) eqn:Hp.
  - rewrite assign_nodes_lookup.
    destruct (decide (name ∈ map getName (getObjects S))) as [Hin | Hnin].
    + rewrite decide_True by (split; assumption).
      now rewrite last_snoc.
    + rewrite decide_False by (intros [_ ?]; contradiction).
      now rewrite app_nil_r.
  - rewrite decide_False by (intros [? _]; congruence).
    now rewrite app_nil_r.
Qed.

(** X5. The effect mapping holds, under each name, the LAST metadata set of
    the scene (in the order the host lists them) whose name starts with
    "PostProcessing" and that is assigned to a node of that name; a name is
    a key exactly when there is such a set.  A set without the prefix, and a
    set assigned to no node, leaves no trace. *)
Theorem effect_mapping_last_assigned_set
    (metadataSets : list vrdMetadataSet) (name : string) :
  initializePostProcessingEffectMapping metadataSets !! name =
    last (filter (assigned_to name) metadataSets)
  /\ (is_Some (initializePostProcessingEffectMapping metadataSets !! name) <->
      exists S, S ∈ metadataSets /\ assigned_to name S)
  /\ (forall before S after,
        metadataSets = before ++ S :: after ->
        assigned_to name S ->
        Forall (fun S' => ~ assigned_to name S') after ->
        initializePostProcessingEffectMapping metadataSets !! name = Some S).
Proof.
  split; [apply initializePostProcessingEffectMapping_lookup|]. split.
  - rewrite initializePostProcessingEffectMapping_lookup. split.
    + intros [S HS]. apply last_Some_elem_of in HS.
      apply list_elem_of_filter in HS as [? ?]. eauto.
    + intros (S & Hin & HS).
      assert (S ∈ filter (assigned_to name) metadataSets) as Hf
        by (apply list_elem_of_filter; auto).
      apply last_is_Some. intros E. rewrite E in Hf.
      now apply not_elem_of_nil in Hf.
  - intros before S after -> HS Hafter.
    rewrite initializePostProcessingEffectMapping_lookup.
    rewrite filter_app, filter_cons, decide_True by assumption.
    assert (filter (assigned_to name) after = []) as ->.
    { induction after as [|S' after IH]; [reflexivity|].
      apply Forall_cons in Hafter as [H1 H2].
      rewrite filter_cons, decide_False by assumption. now apply IH. }
    apply last_snoc.
Qed.

(** Two sets assigned to a node called "Box": the later one is recorded; the
    set without the prefix is not. *)
Lemma effect_mapping_last_assigned_set_witness :
  initializePostProcessingEffectMapping
    [exposure_only_set;
     mkSet "PostProcessing_Late" [exposure_only_box] {[ "camera:exposure" := PyFloat 4 ]};
     mkSet "Lighting" [exposure_only_box] ∅] !! "Box"
  = Some (mkSet "PostProcessing_Late" [exposure_only_box] {[ "camera:exposure" := PyFloat 4 ]}).
Proof.
  destruct (effect_mapping_last_assigned_set
              [exposure_only_set;
               mkSet "PostProcessing_Late" [exposure_only_box] {[ "camera:exposure" := PyFloat 4 ]};
               mkSet "Lighting" [exposure_only_box] ∅] "Box") as (_ & _ & H).
  apply (H [exposure_only_set] _ [mkSet "Lighting" [exposure_only_box] ∅]).
  - reflexivity.
  - split; [reflexivity|]. apply list_elem_of_here.
  - apply Forall_cons. split; [|constructor]. intros [Hp _]. discriminate Hp.
Defined.

(** ** What no frame touches *)

Lemma same_setup_refl (s : PostProcessingController) : same_setup s s.
Proof. repeat split. Qed.

Lemma same_setup_trans (s1 s2 s3 : PostProcessingController) :
  same_setup s1 s2 -> same_setup s2 s3 -> same_setup s1 s3.
Proof.
  intros (A1 & A2 & A3 & A4 & A5) (B1 & B2 & B3 & B4 & B5).
  repeat split; congruence.
Qed.

Lemma smooth_same_setup (s : PostProcessingController) :
  same_setup s (snd (smoothCameraParameterUpdate s)).
Proof. unfold same_setup. now autorewrite with smooth. Qed.

Lemma setPostProcessingEffects_total (v : vrdNode) (s : PostProcessingController) :
  fst (setPostProcessingEffects v s) = Ok tt
  /\ same_setup s (snd (setPostProcessingEffects v s))
  /\ camera (snd (setPostProcessingEffects v s)) = camera s
  /\ lastActiveProcessingVolume (snd (setPostProcessingEffects v s)) =
       lastActiveProcessingVolume s.
Proof.
  destruct (postProcessingEffectMapping s !! getName v) as [effect|] eqn:Hm.
  - rewrite (setPostProcessingEffects_mapped v s effect Hm). repeat split.
  - rewrite (setPostProcessingEffects_unmapped v s Hm). repeat split.
Qed.

Lemma resetPostProcessingEffects_same_setup (s : PostProcessingController) :
  same_setup s (snd (resetPostProcessingEffects s)).
Proof.
  unfold resetPostProcessingEffects. unfold_py. simpl.
  destruct (originalCameraParameters s !! "exposure"); simpl; [|repeat split].
  destruct (originalCameraParameters s !! "saturation"); repeat split.
Qed.

Lemma loop_same_setup (s : PostProcessingController) : same_setup s (snd (loop s)).
Proof.
  rewrite loop_unfold. destruct (isActive s) eqn:Ha; [|apply smooth_same_setup].
  unfold onVolumeChange. unfold bind at 1 2 3. unfold gets at 1.
  destruct (node_ne _ _).
  - destruct (scanVolumes _ _) as [v|].
    + destruct (setPostProcessingEffects_total v s) as (_ & H & _).
      destruct (setPostProcessingEffects v s) as [[[]|e] s1]; simpl in *; [|exact H].
      unfold modify. eapply same_setup_trans; [exact H|].
      eapply same_setup_trans; [|apply smooth_same_setup]. repeat split.
    + pose proof (resetPostProcessingEffects_same_setup s) as H.
      destruct (resetPostProcessingEffects s) as [[[]|e] s1]; simpl in *; [|exact H].
      unfold modify. eapply same_setup_trans; [exact H|].
      eapply same_setup_trans; [|apply smooth_same_setup]. repeat split.
  - unfold ret, modify. eapply same_setup_trans; [|apply smooth_same_setup].
    repeat split.
Qed.

(** X6. Whatever the controller holds and however the call ends, one call
    of [loop] leaves the active flag, the list of volumes, the effect
    mapping, the start-up camera values and the camera position as they
    were: the script writes nothing but the two targets, the stored volume,
    its output and the camera's exposure and saturation. *)
Theorem loop_writes_no_setup (s : PostProcessingController) :
  isActive (snd (loop s)) = isActive s
  /\ postProcessingVolumes (snd (loop s)) = postProcessingVolumes s
  /\ postProcessingEffectMapping (snd (loop s)) = postProcessingEffectMapping s
  /\ originalCameraParameters (snd (loop s)) = originalCameraParameters s
  /\ getWorldTranslation (camera (snd (loop s))) = getWorldTranslation (camera s).
Proof. apply loop_same_setup. Qed.

(** X7. [setPostProcessingEffects] never raises: the membership test keeps
    the dict subscript from a [KeyError] for every volume and every mapping.
    It prints its line and leaves the camera and the stored volume alone. *)
Theorem setPostProcessingEffects_never_raises
    (v : vrdNode) (s : PostProcessingController) :
  fst (setPostProcessingEffects v s) = Ok tt
  /\ stdout (snd (setPostProcessingEffects v s)) = stdout s ++ [entered_msg v]
  /\ camera (snd (setPostProcessingEffects v s)) = camera s
  /\ lastActiveProcessingVolume (snd (setPostProcessingEffects v s)) =
       lastActiveProcessingVolume s.
Proof.
  destruct (setPostProcessingEffects_total v s) as (H1 & _ & H3 & H4).
  split; [exact H1|]. split; [apply setPostProcessingEffects_stdout|]. now split.
Qed.

Lemma frame_same_setup (p : QVector3D) (s : PostProcessingController) :
  isActive (snd (frame p s)) = isActive s
  /\ postProcessingVolumes (snd (frame p s)) = postProcessingVolumes s
  /\ postProcessingEffectMapping (snd (frame p s)) = postProcessingEffectMapping s
  /\ originalCameraParameters (snd (frame p s)) = originalCameraParameters s.
Proof.
  unfold frame.
  destruct (loop_same_setup (set_camera (setWorldTranslation p (camera s)) s))
    as (H1 & H2 & H3 & H4 & _).
  auto.
Qed.

Lemma run_same_setup (path : list QVector3D) :
  forall s,
    isActive (run path s) = isActive s
    /\ postProcessingVolumes (run path s) = postProcessingVolumes s
    /\ postProcessingEffectMapping (run path s) = postProcessingEffectMapping s
    /\ originalCameraParameters (run path s) = originalCameraParameters s.
Proof.
  induction path as [|p path IH]; intros s; [auto|].
  change (run (p :: path) s) with (run path (snd (frame p s))).
  destruct (IH (snd (frame p s))) as (H1 & H2 & H3 & H4).
  destruct (frame_same_setup p s) as (F1 & F2 & F3 & F4).
  repeat split; congruence.
Qed.

(** X8. The baseline is captured once: after any number of frames along any
    camera path, whatever exceptions occurred on the way, the controller
    built by [__init__] is still active, holds the same volumes and effect
    mapping, and its start-up dict still maps "exposure" and "saturation"
    to the values the camera had at start-up. *)
Theorem baseline_survives_every_path
    (cam : vrdCameraNode) (objects : list vrdNode)
    (metadataSets : list vrdMetadataSet) (path : list QVector3D) :
  let s := run path (init cam objects metadataSets) in
  isActive s = true
  /\ postProcessingVolumes s = objects
  /\ postProcessingEffectMapping s = initializePostProcessingEffectMapping metadataSets
  /\ originalCameraParameters s !! "exposure" = Some (getExposure cam)
  /\ originalCameraParameters s !! "saturation" = Some (getColorCorrectionSaturation cam).
Proof.
  intros s. subst s.
  destruct (run_same_setup path (init cam objects metadataSets)) as (H1 & H2 & H3 & H4).
  rewrite H1, H2, H3, H4. repeat split.
Qed.

(** ** Output along an arbitrary path *)

Lemma run_lines (path : list QVector3D) :
  forall s,
    ready s ->
    ready (run path s)
    /\ stdout (run path s) =
         stdout s ++
         transition_lines (lastActiveProcessingVolume s)
           (map (activeAt (postProcessingVolumes s)) path)
    /\ lastActiveProcessingVolume (run path s) =
         default (lastActiveProcessingVolume s)
           (last (map (activeAt (postProcessingVolumes s)) path)).
Proof.
  induction path as [|p path IH]; intros s Hr.
  - simpl. rewrite app_nil_r. auto.
  - change (run (p :: path) s) with (run path (snd (frame p s))).
    destruct (frame_effect p s Hr) as (Hr1 & Hv1 & Hl1 & Ho1).
    destruct (IH (snd (frame p s)) Hr1) as (H1 & H2 & H3).
    rewrite Hv1, Hl1 in H2, H3. split; [exact H1|]. split.
    + rewrite H2, Ho1. cbn [map transition_lines]. now rewrite <- app_assoc.
    + rewrite H3. cbn [map]. rewrite last_cons.
      now destruct (last (map (activeAt (postProcessingVolumes s)) path)).
Qed.

(** X9. For a controller that is active and has its start-up values, the
    output along ANY camera path, over any list of volumes, is one line per
    change of the volume the scan finds from one frame to the next (an entry
    line for a volume, the exit line for none), and nothing else; the volume
    stored at the end is the one found on the last frame. *)
Theorem output_is_one_line_per_change
    (s : PostProcessingController) (path : list QVector3D) :
  ready s ->
  stdout (run path s) =
    stdout s ++
    transition_lines (lastActiveProcessingVolume s)
      (map (activeAt (postProcessingVolumes s)) path)
  /\ lastActiveProcessingVolume (run path s) =
       default (lastActiveProcessingVolume s)
         (last (map (activeAt (postProcessingVolumes s)) path)).
Proof. intros Hr. now destruct (run_lines path s Hr) as (_ & H1 & H2). Qed.

(** Through the left box, straight on into the right box, and out. *)
Lemma output_is_one_line_per_change_witness :
  stdout (run [mkVec 1 1 1; mkVec 1.5 1 1; mkVec 3 1 1; mkVec 5 1 1] two_box_scene) =
    ["Camera entered post processing volume: A";
     "Camera entered post processing volume: B";
     "Camera left post processing volume"].
Proof.
  destruct (output_is_one_line_per_change two_box_scene
              [mkVec 1 1 1; mkVec 1.5 1 1; mkVec 3 1 1; mkVec 5 1 1])
    as [H _]; [apply init_ready|].
  rewrite H. vm_compute. reflexivity.
Defined.

(** ** Frames without change of volume *)

Lemma frame_stay (p : QVector3D) (s : PostProcessingController) :
  isActive s = true ->
  activeAt (postProcessingVolumes s) p = lastActiveProcessingVolume s ->
  frame p s =
    smoothCameraParameterUpdate (set_camera (setWorldTranslation p (camera s)) s).
Proof.
  intros Ha Hact. unfold frame.
  set (t := set_camera (setWorldTranslation p (camera s)) s).
  assert (scanVolumes (camera t) (postProcessingVolumes t) =
          lastActiveProcessingVolume t) as Hscan.
  { subst t. now rewrite scanVolumes_activeAt. }
  rewrite (loop_same t Ha) by (rewrite Hscan; apply node_ne_refl).
  rewrite Hscan. now destruct s.
Qed.

Lemma run_stay_targets (path : list QVector3D) :
  forall s,
    isActive s = true ->
    Forall (fun p => activeAt (postProcessingVolumes s) p =
                     lastActiveProcessingVolume s) path ->
    exposureTarget (run path s) = exposureTarget s
    /\ saturationTarget (run path s) = saturationTarget s
    /\ lastActiveProcessingVolume (run path s) = lastActiveProcessingVolume s
    /\ stdout (run path s) = stdout s.
Proof.
  induction path as [|p path IH]; intros s Ha Hall; [auto|].
  apply Forall_cons in Hall as [Hp Hrest].
  change (run (p :: path) s) with (run path (snd (frame p s))).
  pose proof (frame_stay p s Ha Hp) as Hf.
  destruct (frame_same_setup p s) as (F1 & F2 & _).
  destruct (IH (snd (frame p s))) as (H1 & H2 & H3 & H4).
  - congruence.
  - rewrite F2, Hf. autorewrite with smooth. exact Hrest.
  - rewrite H1, H2, H3, H4, Hf. now autorewrite with smooth.
Qed.

(** X10. Targets are written on transitions only: while every frame finds
    the camera where the frame before left it (in the stored volume, or in
    none when none is stored), both targets, the stored volume and the
    output stay exactly as they were, for any number of frames. *)
Theorem no_change_of_volume_no_retarget
    (s : PostProcessingController) (path : list QVector3D) :
  isActive s = true ->
  Forall (fun p => activeAt (postProcessingVolumes s) p =
                   lastActiveProcessingVolume s) path ->
  exposureTarget (run path s) = exposureTarget s
  /\ saturationTarget (run path s) = saturationTarget s
  /\ lastActiveProcessingVolume (run path s) = lastActiveProcessingVolume s
  /\ stdout (run path s) = stdout s.
Proof. intros Ha Hall. now apply run_stay_targets. Qed.

(** Three more frames inside the car interior after the entry frame. *)
Lemma no_change_of_volume_no_retarget_witness :
  let s := snd (loop car_interior_scene) in
  exposureTarget (run [mkVec 1 1 1; mkVec 0.5 1 1; mkVec 1 1.5 1] s) = PyFloat 2
  /\ stdout (run [mkVec 1 1 1; mkVec 0.5 1 1; mkVec 1 1.5 1] s) =
       ["Camera entered post processing volume: Interior"].
Proof.
  intros s.
  destruct (no_change_of_volume_no_retarget s [mkVec 1 1 1; mkVec 0.5 1 1; mkVec 1 1.5 1])
    as (He & _ & _ & Hout).
  - vm_compute. reflexivity.
  - repeat constructor.
  - split; [rewrite He | rewrite Hout]; vm_compute; reflexivity.
Defined.

(** ** Frames that return normally, frames that keep raising *)

Lemma smooth_ok (s : PostProcessingController) :
  float_targets s -> fst (smoothCameraParameterUpdate s) = Ok tt.
Proof.
  intros (te & ts & He & Hs).
  now rewrite (smoothCameraParameterUpdate_floats s te ts He Hs).
Qed.

Lemma getValue_complete (S : vrdMetadataSet) (key : string) :
  (exists f, entries S !! key = Some (PyFloat f)) ->
  exists f, getValue S key = PyFloat f.
Proof. intros [f Hf]. exists f. unfold getValue. now rewrite Hf. Qed.

Lemma loop_ok (s : PostProcessingController) :
  ready s -> complete_mapping s -> float_targets s ->
  fst (loop s) = Ok tt /\ float_targets (snd (loop s)).
Proof.
  intros (Ha & [e0 He0] & [s0 Hs0]) Hc Hf.
  assert (forall t, float_targets t ->
            fst (smoothCameraParameterUpdate t) = Ok tt
            /\ float_targets (snd (smoothCameraParameterUpdate t))) as Hsm.
  { intros t Ht. split; [now apply smooth_ok|].
    unfold float_targets. now autorewrite with smooth. }
  destruct (node_ne (lastActiveProcessingVolume s)
              (scanVolumes (camera s) (postProcessingVolumes s))) eqn:Hne.
  - destruct (scanVolumes (camera s) (postProcessingVolumes s)) as [v|] eqn:Hscan.
    + destruct (postProcessingEffectMapping s !! getName v) as [effect|] eqn:Hm.
      * rewrite (loop_entry_mapped s v effect Ha Hscan Hne Hm). apply Hsm.
        destruct (Hc _ _ Hm) as [H1 H2].
        destruct (getValue_complete _ _ H1) as [fe Hfe].
        destruct (getValue_complete _ _ H2) as [fs Hfs].
        exists fe, fs. simpl. auto.
      * rewrite (loop_entry_unmapped s v Ha Hscan Hne Hm). apply Hsm. exact Hf.
    + destruct (lastActiveProcessingVolume s) as [v|] eqn:Hlast; [|discriminate].
      rewrite (loop_exit_ok s v e0 s0 Ha Hscan Hlast He0 Hs0). apply Hsm.
      exists e0, s0. simpl. auto.
  - rewrite (loop_same s Ha Hne). apply Hsm. exact Hf.
Qed.

Lemma run_ok (path : list QVector3D) :
  forall s,
    ready s -> complete_mapping s -> float_targets s ->
    Forall (fun r => r = Ok tt) (outcomes path s) /\ float_targets (run path s).
Proof.
  induction path as [|p path IH]; intros s Hr Hc Hf; [split; [constructor | exact Hf]|].
  change (run (p :: path) s) with (run path (snd (frame p s))).
  cbn [outcomes].
  set (t := set_camera (setWorldTranslation p (camera s)) s).
  assert (ready t) as Hrt by exact Hr.
  assert (complete_mapping t) as Hct by exact Hc.
  assert (float_targets t) as Hft by exact Hf.
  destruct (loop_ok t Hrt Hct Hft) as [Hok Hf'].
  destruct (frame_effect p s Hr) as (Hr1 & _).
  destruct (frame_same_setup p s) as (_ & _ & Hm & _).
  destruct (IH (snd (frame p s))) as [H1 H2]; try assumption.
  - unfold complete_mapping. rewrite Hm. exact Hc.
  - split; [|exact H2]. apply Forall_cons. split; [exact Hok | exact H1].
Qed.

(** X11. If every metadata set in the effect mapping has both the
    "camera:exposure" and the "camera:saturation" entry and both hold
    numbers, a controller that is active, has its start-up values and float
    targets never raises: along any camera path every frame returns normally
    and the targets stay floats. *)
Theorem complete_sets_never_raise
    (s : PostProcessingController) (path : list QVector3D) :
  ready s -> complete_mapping s -> float_targets s ->
  Forall (fun r => r = Ok tt) (outcomes path s) /\ float_targets (run path s).
Proof. intros Hr Hc Hf. now apply run_ok. Qed.

Lemma two_box_complete : complete_mapping two_box_scene.
Proof.
  intros name S.
  change (postProcessingEffectMapping two_box_scene)
    with (initializePostProcessingEffectMapping [left_set; right_set]).
  rewrite initializePostProcessingEffectMapping_lookup.
  intros H%last_Some_elem_of. apply list_elem_of_filter in H as [_ H].
  apply elem_of_cons in H as [-> | H]; [split; vm_compute; eauto|].
  apply list_elem_of_singleton in H as ->. split; vm_compute; eauto.
Qed.

(** Walking through both boxes of the two-box scene: four frames, all fine. *)
Lemma complete_sets_never_raise_witness :
  Forall (fun r => r = Ok tt)
    (outcomes [mkVec 1 1 1; mkVec 3 1 1; mkVec 5 1 1; mkVec 1 1 1] two_box_scene).
Proof.
  destruct (complete_sets_never_raise two_box_scene
              [mkVec 1 1 1; mkVec 3 1 1; mkVec 5 1 1; mkVec 1 1 1]) as [H _].
  - apply init_ready.
  - exact two_box_complete.
  - exists 1%float, 1%float. split; reflexivity.
  - exact H.
Defined.

Lemma run_stuck_general (path : list QVector3D) :
  forall s,
    isActive s = true ->
    not_a_number (exposureTarget s) \/ not_a_number (saturationTarget s) ->
    Forall (fun p => activeAt (postProcessingVolumes s) p =
                     lastActiveProcessingVolume s) path ->
    outcomes path s = map (fun _ => Raise TypeError) path
    /\ getExposure (camera (run path s)) = getExposure (camera s)
    /\ getColorCorrectionSaturation (camera (run path s)) =
         getColorCorrectionSaturation (camera s).
Proof.
  induction path as [|p path IH]; intros s Ha Hnone Hall; [auto|].
  apply Forall_cons in Hall as [Hp Hrest].
  change (run (p :: path) s) with (run path (snd (frame p s))).
  cbn [outcomes map].
  rewrite (frame_stay p s Ha Hp).
  rewrite (smoothCameraParameterUpdate_not_a_number
             (set_camera (setWorldTranslation p (camera s)) s) Hnone).
  cbn [fst snd].
  destruct (IH (set_camera (setWorldTranslation p (camera s)) s) Ha Hnone Hrest)
    as (H1 & H2 & H3).
  rewrite H1, H2, H3. auto.
Qed.

Lemma run_stuck (path : list QVector3D) :
  forall s,
    isActive s = true ->
    exposureTarget s = PyNone \/ saturationTarget s = PyNone ->
    Forall (fun p => activeAt (postProcessingVolumes s) p =
                     lastActiveProcessingVolume s) path ->
    outcomes path s = map (fun _ => Raise TypeError) path
    /\ getExposure (camera (run path s)) = getExposure (camera s)
    /\ getColorCorrectionSaturation (camera (run path s)) =
         getColorCorrectionSaturation (camera s).
Proof.
  intros s Ha Hnone Hall. apply run_stuck_general; try assumption.
  destruct Hnone as [-> | ->]; [left | right]; exact I.
Qed.

(** X12. Once a target holds [None] (the volume entered has a metadata set
    without one of the two entries), the blend is stuck for as long as the
    camera stays in that volume: every frame raises [TypeError] and the
    camera's exposure and saturation do not move at all. *)
Theorem none_target_stalls_the_blend
    (s : PostProcessingController) (path : list QVector3D) :
  isActive s = true ->
  exposureTarget s = PyNone \/ saturationTarget s = PyNone ->
  Forall (fun p => activeAt (postProcessingVolumes s) p =
                   lastActiveProcessingVolume s) path ->
  outcomes path s = map (fun _ => Raise TypeError) path
  /\ getExposure (camera (run path s)) = getExposure (camera s)
  /\ getColorCorrectionSaturation (camera (run path s)) =
       getColorCorrectionSaturation (camera s).
Proof. intros Ha Hnone Hall. now apply run_stuck. Qed.

(** The exposure-only scene after its entry frame, two more frames inside:
    the exposure target is 2 but the exposure stays 1. *)
Lemma none_target_stalls_the_blend_witness :
  let s := snd (loop exposure_only_scene) in
  exposureTarget s = PyFloat 2
  /\ outcomes [mkVec 1 1 1; mkVec 1.5 1 1] s = [Raise TypeError; Raise TypeError]
  /\ getExposure (camera (run [mkVec 1 1 1; mkVec 1.5 1 1] s)) = 1%float.
Proof.
  intros s. split; [vm_compute; reflexivity|].
  destruct (none_target_stalls_the_blend s [mkVec 1 1 1; mkVec 1.5 1 1])
    as (H1 & H2 & _).
  - vm_compute. reflexivity.
  - right. vm_compute. reflexivity.
  - repeat constructor.
  - split; [exact H1|]. rewrite H2. vm_compute. reflexivity.
Defined.

(** ** From start-up *)

Lemma run_idle (path : list QVector3D) :
  forall s,
    isActive s = true ->
    lastActiveProcessingVolume s = None ->
    exposureTarget s = PyFloat (getExposure (camera s)) ->
    saturationTarget s = PyFloat (getColorCorrectionSaturation (camera s)) ->
    Forall (fun p => activeAt (postProcessingVolumes s) p = None) path ->
    outcomes path s = map (fun _ => Ok tt) path
    /\ getExposure (camera (run path s)) = getExposure (camera s)
    /\ getColorCorrectionSaturation (camera (run path s)) =
         getColorCorrectionSaturation (camera s)
    /\ stdout (run path s) = stdout s.
Proof.
  induction path as [|p path IH]; intros s Ha Hlast He Hs Hall; [auto|].
  apply Forall_cons in Hall as [Hp Hrest].
  change (run (p :: path) s) with (run path (snd (frame p s))).
  cbn [outcomes map].
  assert (frame p s = (Ok tt, set_camera (setWorldTranslation p (camera s)) s)) as Hf.
  { rewrite (frame_stay p s Ha) by congruence.
    rewrite (smoothCameraParameterUpdate_floats
               (set_camera (setWorldTranslation p (camera s)) s) _ _ He Hs).
    simpl.
    rewrite !blend_spec_same. reflexivity. }
  rewrite Hf. cbn [fst snd].
  destruct (IH (set_camera (setWorldTranslation p (camera s)) s) Ha Hlast He Hs Hrest)
    as (H1 & H2 & H3 & H4).
  rewrite H1, H2, H3, H4. auto.
Qed.

(** X13. As long as the camera has not been in any volume since start-up,
    the script does nothing: every frame returns normally, nothing is
    printed, and exposure and saturation keep exactly their start-up values
    (the targets are those values, and a value is never farther than 0.1
    from itself). *)
Theorem outside_since_startup_changes_nothing
    (cam : vrdCameraNode) (objects : list vrdNode)
    (metadataSets : list vrdMetadataSet) (path : list QVector3D) :
  Forall (fun p => activeAt objects p = None) path ->
  let s := run path (init cam objects metadataSets) in
  outcomes path (init cam objects metadataSets) = map (fun _ => Ok tt) path
  /\ getExposure (camera s) = getExposure cam
  /\ getColorCorrectionSaturation (camera s) = getColorCorrectionSaturation cam
  /\ stdout s = [].
Proof.
  intros Hall s. subst s.
  now apply (run_idle path (init cam objects metadataSets)).
Qed.

(** Three frames next to the two boxes. *)
Lemma outside_since_startup_changes_nothing_witness :
  let path := [mkVec 5 5 5; mkVec 5 1 1; mkVec 2 1 1] in
  outcomes path two_box_scene = [Ok tt; Ok tt; Ok tt]
  /\ getExposure (camera (run path two_box_scene)) = 1%float
  /\ stdout (run path two_box_scene) = [].
Proof.
  intros path.
  destruct (outside_since_startup_changes_nothing
              (mkCamera (mkVec 1 1 1) 1 1) [left_box; right_box]
              [left_set; right_set] path) as (H1 & H2 & _ & H4).
  - repeat constructor.
  - split; [exact H1|]. split; [exact H2 | exact H4].
Defined.

(** X14. The first frame with the camera in a volume [v], straight after
    start-up, prints the entry line of [v], stores [v], and takes both
    targets from the last "PostProcessing" set of the scene assigned to a
    node named like [v]; with no such set the targets stay the camera's
    start-up values. *)
Theorem first_entry_from_startup
    (cam : vrdCameraNode) (objects : list vrdNode)
    (metadataSets : list vrdMetadataSet) (v : vrdNode) :
  scanVolumes cam objects = Some v ->
  let s' := snd (loop (init cam objects metadataSets)) in
  stdout s' = [entered_msg v]
  /\ lastActiveProcessingVolume s' = Some v
  /\ match last (filter (assigned_to (getName v)) metadataSets) with
     | Some effect =>
         exposureTarget s' = getValue effect "camera:exposure"
         /\ saturationTarget s' = getValue effect "camera:saturation"
     | None =>
         exposureTarget s' = PyFloat (getExposure cam)
         /\ saturationTarget s' = PyFloat (getColorCorrectionSaturation cam)
     end.
Proof.
  intros Hscan s'. subst s'.
  set (s := init cam objects metadataSets).
  assert (isActive s = true) as Ha by reflexivity.
  assert (scanVolumes (camera s) (postProcessingVolumes s) = Some v) as Hs by exact Hscan.
  assert (node_ne (lastActiveProcessingVolume s) (Some v) = true) as Hne by reflexivity.
  pose proof (initializePostProcessingEffectMapping_lookup metadataSets (getName v)) as Hl.
  change (initializePostProcessingEffectMapping metadataSets)
    with (postProcessingEffectMapping s) in Hl.
  destruct (last (filter (assigned_to (getName v)) metadataSets)) as [S|].
  - rewrite (loop_entry_mapped s v S Ha Hs Hne Hl).
    autorewrite with smooth. simpl. auto.
  - rewrite (loop_entry_unmapped s v Ha Hs Hne Hl).
    autorewrite with smooth. simpl. auto.
Qed.

(** Start-up inside the right box of the two-box scene. *)
Lemma first_entry_from_startup_witness :
  let s' := snd (loop (init (mkCamera (mkVec 3 1 1) 1 1) [left_box; right_box]
                         [left_set; right_set])) in
  stdout s' = ["Camera entered post processing volume: B"]
  /\ exposureTarget s' = PyFloat 3
  /\ saturationTarget s' = PyFloat 1.5.
Proof.
  intros s'.
  destruct (first_entry_from_startup (mkCamera (mkVec 3 1 1) 1 1)
              [left_box; right_box] [left_set; right_set] right_box)
    as (H1 & _ & H3); [reflexivity|].
  split; [exact H1|]. exact H3.
Defined.

Lemma frame_targets_when_outside (p : QVector3D) (s : PostProcessingController)
    (e0 s0 : float) :
  isActive s = true ->
  originalCameraParameters s !! "exposure" = Some e0 ->
  originalCameraParameters s !! "saturation" = Some s0 ->
  (lastActiveProcessingVolume s = None ->
   exposureTarget s = PyFloat e0 /\ saturationTarget s = PyFloat s0) ->
  lastActiveProcessingVolume (snd (frame p s)) = None ->
  exposureTarget (snd (frame p s)) = PyFloat e0
  /\ saturationTarget (snd (frame p s)) = PyFloat s0.
Proof.
  intros Ha He0 Hs0 Hinv.
  assert (ready s) as Hr by (unfold ready; eauto).
  destruct (frame_effect p s Hr) as (_ & _ & Hl & _). rewrite Hl. intros Hact.
  unfold frame. set (t := set_camera (setWorldTranslation p (camera s)) s).
  assert (scanVolumes (camera t) (postProcessingVolumes t) = None) as Hscan
    by (subst t; now rewrite scanVolumes_activeAt).
  destruct (lastActiveProcessingVolume s) as [v|] eqn:Hlast.
  - rewrite (loop_exit_ok t v e0 s0 Ha Hscan Hlast He0 Hs0).
    autorewrite with smooth. simpl. auto.
  - assert (node_ne (lastActiveProcessingVolume t)
              (scanVolumes (camera t) (postProcessingVolumes t)) = false) as Hne
      by (rewrite Hscan; subst t; simpl; now rewrite Hlast).
    rewrite (loop_same t Ha Hne). autorewrite with smooth. simpl.
    now apply Hinv.
Qed.

Lemma run_targets_when_outside (path : list QVector3D) (e0 s0 : float) :
  forall s,
    isActive s = true ->
    originalCameraParameters s !! "exposure" = Some e0 ->
    originalCameraParameters s !! "saturation" = Some s0 ->
    (lastActiveProcessingVolume s = None ->
     exposureTarget s = PyFloat e0 /\ saturationTarget s = PyFloat s0) ->
    lastActiveProcessingVolume (run path s) = None ->
    exposureTarget (run path s) = PyFloat e0
    /\ saturationTarget (run path s) = PyFloat s0.
Proof.
  induction path as [|p path IH]; intros s Ha He0 Hs0 Hinv; [exact Hinv|].
  change (run (p :: path) s) with (run path (snd (frame p s))).
  destruct (frame_same_setup p s) as (F1 & _ & _ & F4).
  apply IH.
  - congruence.
  - now rewrite F4.
  - now rewrite F4.
  - now apply frame_targets_when_outside.
Qed.

(** X15. Outside means baseline: at any moment of any run from start-up at
    which no volume is stored (the camera was in no volume on the last
    frame), both targets are the exposure and saturation the camera had at
    start-up, whatever the metadata sets of the volumes visited before
    held. *)
Theorem no_volume_stored_means_baseline_targets
    (cam : vrdCameraNode) (objects : list vrdNode)
    (metadataSets : list vrdMetadataSet) (path : list QVector3D) :
  let s := run path (init cam objects metadataSets) in
  lastActiveProcessingVolume s = None ->
  exposureTarget s = PyFloat (getExposure cam)
  /\ saturationTarget s = PyFloat (getColorCorrectionSaturation cam).
Proof.
  intros s. subst s.
  apply (run_targets_when_outside path _ _ (init cam objects metadataSets));
    try reflexivity.
  intros _. split; reflexivity.
Qed.

(** Into the exposure-only box (saturation target becomes [None]) and out
    again: both targets are 1 as at start-up. *)
Lemma no_volume_stored_means_baseline_targets_witness :
  let s := run [mkVec 1 1 1; mkVec 5 5 5] exposure_only_scene in
  exposureTarget s = PyFloat 1 /\ saturationTarget s = PyFloat 1.
Proof.
  intros s.
  apply (no_volume_stored_means_baseline_targets
           (mkCamera (mkVec 1 1 1) 1 1) [exposure_only_box] [exposure_only_set]
           [mkVec 1 1 1; mkVec 5 5 5]).
  vm_compute. reflexivity.
Defined.

(** ** A paused controller along a path *)

Lemma smooth_moved (p : QVector3D) (s : PostProcessingController) :
  smoothCameraParameterUpdate (set_camera (setWorldTranslation p (camera s)) s) =
    (fst (smoothCameraParameterUpdate s),
     set_camera
       (setWorldTranslation p (camera (snd (smoothCameraParameterUpdate s))))
       (snd (smoothCameraParameterUpdate s))).
Proof.
  destruct (PyVal_cases (exposureTarget s)) as [[te He] | He];
    [destruct (PyVal_cases (saturationTarget s)) as [[ts Hs] | Hs]|].
  - rewrite (smoothCameraParameterUpdate_floats s te ts He Hs).
    rewrite (smoothCameraParameterUpdate_floats
               (set_camera (setWorldTranslation p (camera s)) s) te ts He Hs).
    reflexivity.
  - rewrite (smoothCameraParameterUpdate_not_a_number s) by (right; exact Hs).
    rewrite (smoothCameraParameterUpdate_not_a_number
               (set_camera (setWorldTranslation p (camera s)) s))
      by (right; exact Hs).
    reflexivity.
  - rewrite (smoothCameraParameterUpdate_not_a_number s) by (left; exact He).
    rewrite (smoothCameraParameterUpdate_not_a_number
               (set_camera (setWorldTranslation p (camera s)) s))
      by (left; exact He).
    reflexivity.
Qed.

Lemma smoothN_moved (n : nat) :
  forall (p : QVector3D) (s : PostProcessingController),
    smoothN n (set_camera (setWorldTranslation p (camera s)) s) =
      set_camera (setWorldTranslation p (camera (smoothN n s))) (smoothN n s).
Proof.
  induction n as [|n IH]; intros p s; [reflexivity|].
  simpl. rewrite smooth_moved. simpl. apply IH.
Qed.

Lemma run_paused (path : list QVector3D) :
  forall s,
    isActive s = false ->
    getExposure (camera (run path s)) =
      getExposure (camera (smoothN (length path) s))
    /\ getColorCorrectionSaturation (camera (run path s)) =
         getColorCorrectionSaturation (camera (smoothN (length path) s))
    /\ exposureTarget (run path s) = exposureTarget s
    /\ saturationTarget (run path s) = saturationTarget s
    /\ lastActiveProcessingVolume (run path s) = lastActiveProcessingVolume s
    /\ stdout (run path s) = stdout s.
Proof.
  induction path as [|p path IH]; intros s Ha; [repeat split|].
  change (run (p :: path) s) with (run path (snd (frame p s))).
  assert (snd (frame p s) =
          set_camera
            (setWorldTranslation p (camera (snd (smoothCameraParameterUpdate s))))
            (snd (smoothCameraParameterUpdate s))) as Hf.
  { unfold frame. rewrite loop_unfold. simpl. rewrite Ha. now rewrite smooth_moved. }
  rewrite Hf.
  destruct (IH (set_camera
                  (setWorldTranslation p (camera (snd (smoothCameraParameterUpdate s))))
                  (snd (smoothCameraParameterUpdate s)))) as (H1 & H2 & H3 & H4 & H5 & H6).
  { simpl. now autorewrite with smooth. }
  rewrite H1, H2, H3, H4, H5, H6. cbn [length smoothN].
  rewrite smoothN_moved. simpl. autorewrite with smooth. repeat split.
Qed.

(** X16. While the controller is inactive the camera path is irrelevant:
    after [k] frames, wherever the camera went, exposure and saturation are
    what [k] blend steps make of them, and the targets, the stored volume
    and the output are untouched (so the first frame after re-activation
    compares against the volume stored before the pause). *)
Theorem paused_run_only_blends
    (s : PostProcessingController) (path : list QVector3D) :
  isActive s = false ->
  getExposure (camera (run path s)) =
    getExposure (camera (smoothN (length path) s))
  /\ getColorCorrectionSaturation (camera (run path s)) =
       getColorCorrectionSaturation (camera (smoothN (length path) s))
  /\ exposureTarget (run path s) = exposureTarget s
  /\ saturationTarget (run path s) = saturationTarget s
  /\ lastActiveProcessingVolume (run path s) = lastActiveProcessingVolume s
  /\ stdout (run path s) = stdout s.
Proof. intros Ha. now apply run_paused. Qed.

(** The frozen car interior scene, two frames far outside the box. *)
Lemma paused_run_only_blends_witness :
  lastActiveProcessingVolume (run [mkVec 9 9 9; mkVec 8 8 8] car_interior_frozen) =
    Some car_interior_box
  /\ stdout (run [mkVec 9 9 9; mkVec 8 8 8] car_interior_frozen) =
       ["Camera entered post processing volume: Interior"].
Proof.
  destruct (paused_run_only_blends car_interior_frozen [mkVec 9 9 9; mkVec 8 8 8])
    as (_ & _ & _ & _ & Hl & Ho); [vm_compute; reflexivity|].
  split; [rewrite Hl | rewrite Ho]; vm_compute; reflexivity.
Defined.

(** ** Entries that are no numbers *)

(** X17. A metadata entry that is present but no number is taken over as
    target all the same, and from then on the blend is stuck like with a
    missing entry: for as long as the camera stays in the stored volume
    every frame raises [TypeError] and the camera's exposure and saturation
    do not move, also not the one whose own target is a number. *)
Theorem non_number_target_stalls_the_blend
    (s : PostProcessingController) (path : list QVector3D) :
  isActive s = true ->
  not_a_number (exposureTarget s) \/ not_a_number (saturationTarget s) ->
  Forall (fun p => activeAt (postProcessingVolumes s) p =
                   lastActiveProcessingVolume s) path ->
  outcomes path s = map (fun _ => Raise TypeError) path
  /\ getExposure (camera (run path s)) = getExposure (camera s)
  /\ getColorCorrectionSaturation (camera (run path s)) =
       getColorCorrectionSaturation (camera s).
Proof. intros Ha Hnone Hall. now apply run_stuck_general. Qed.

(** The scene with the string "2.0" as exposure entry: the entry frame
    stores the string and 0.5 as targets and raises; two more frames inside
    raise as well and the saturation stays 1 although its target is 0.5. *)
Lemma non_number_target_stalls_the_blend_witness :
  let s := snd (loop text_valued_scene) in
  exposureTarget s = PyStr "2.0"
  /\ saturationTarget s = PyFloat 0.5
  /\ fst (loop text_valued_scene) = Raise TypeError
  /\ outcomes [mkVec 1 1 1; mkVec 1.5 1 1] s = [Raise TypeError; Raise TypeError]
  /\ getColorCorrectionSaturation (camera (run [mkVec 1 1 1; mkVec 1.5 1 1] s)) = 1%float.
Proof.
  intros s. split; [vm_compute; reflexivity|]. split; [vm_compute; reflexivity|].
  split; [vm_compute; reflexivity|].
  destruct (non_number_target_stalls_the_blend s [mkVec 1 1 1; mkVec 1.5 1 1])
    as (H1 & _ & H3).
  - vm_compute. reflexivity.
  - left. vm_compute. exact I.
  - repeat constructor.
  - split; [exact H1|]. rewrite H3. vm_compute. reflexivity.
Defined.
